(** * PsychSphere backend: the inquiry workflow (validate, persist, notify)

    A shallow embedding of [src/schemas.py] and [src/main.py].

    - Python [str] values are [string]s; one character of the Rocq string
      stands for one character of the Python string. The source only takes
      lengths, tests emptiness and concatenates, so no operation looks
      inside a character.
    - [Optional[str]] is [option string]; Python truthiness of such a value
      is [truthy].
    - The SMTP server, the email package and the document store are
      external: the server is an oracle that answers each call with a return
      or an exception, the email package says which of its calls raise, and
      a store operation takes the fault (if any) that the store raises. *)

From Stdlib Require Import ZArith Ascii String List Lia.
From Stdlib Require Import HexadecimalString.
From stdpp Require Import base option list strings gmap.

Local Open Scope Z_scope.

(** ** Python values used by the source *)

(** An exception, identified by [str(e)]. *)
Definition Exn := string.

Inductive Result (A : Type) : Type :=
| Returns (a : A)
| Raises (e : Exn).
Arguments Returns {A} a.
Arguments Raises {A} e.

(** [bool(x)] for [x : Optional[str]]: [None] and [""] are false. *)
Definition truthy (x : option string) : bool :=
  match x with
  | Some (String _ _) => true
  | Some EmptyString => false
  | None => false
  end.

(** [x or y] on [Optional[str]]. *)
Definition py_or (x y : option string) : option string :=
  if truthy x then x else y.

(** [x or "literal"]: the result is a [str]. *)
Definition py_or_str (x : option string) (y : string) : string :=
  match x with
  | Some (String c s) => String c s
  | Some EmptyString => y
  | None => y
  end.

(** The value of a truthy [Optional[str]], for use under an [if x:] test. *)
Definition if_truthy (x : option string) : option string :=
  if truthy x then x else None.

(** [s] has [sub] as a contiguous part. *)
Definition contains (s sub : string) : Prop :=
  exists pre post : string, s = pre +:+ sub +:+ post.

(** ** src/schemas.py *)

Record Inquiry := {
  name : string;
  email : string;
  phone : option string;
  message : string;
  source : option string;
  newsletter_opt_in : bool
}.

(** ** src/main.py: SMTP configuration constants (lines 68-74) *)

Definition getenv (environ : gmap string string) (key : string) : option string :=
  environ !! key.

Definition getenv_default (environ : gmap string string) (key default : string) : string :=
  match environ !! key with
  | Some v => v
  | None => default
  end.

Record Settings := {
  SMTP_HOST : option string;
  SMTP_PORT : Z;
  SMTP_USER : option string;
  SMTP_PASS : option string;
  TO_EMAIL : option string;
  FROM_NAME : string;
  FROM_EMAIL : string
}.

(** ** The SMTP transport, as seen from [send_inquiry_email] *)

(** [MIMEMultipart("alternative")] with its headers and its attached
    [MIMEText(payload, subtype)] parts. [From] holds the pair given to
    [formataddr]. *)
Record Message := {
  msg_subtype : string;
  Subject : string;
  From : string * string;
  To : string;
  parts : list (string * string)
}.

Inductive SmtpCall :=
| SMTP_connect (host : string) (port : Z) (timeout : Z)
| SMTP_starttls
| SMTP_login (user password : string)
| SMTP_sendmail (from_addr : string) (to_addrs : list string) (msg : Message)
| SMTP_quit.

(** The server answers a call, given the calls made before it on the same
    connection (oldest first): [None] when the call returns, [Some e] when it
    raises the exception [e]. *)
Definition SmtpServer := list SmtpCall -> SmtpCall -> option Exn.

(** Code that talks to the server: it extends the log of calls and returns
    or raises. *)
Definition Smtp (A : Type) : Type :=
  SmtpServer -> list SmtpCall -> list SmtpCall * Result A.

Definition smtp_ret {A} (a : A) : Smtp A :=
  fun _ log => (log, Returns a).

Definition smtp_bind {A B} (m : Smtp A) (k : A -> Smtp B) : Smtp B :=
  fun srv log =>
    match m srv log with
    | (log', Returns a) => k a srv log'
    | (log', Raises e) => (log', Raises e)
    end.

#[global] Instance Smtp_ret : MRet Smtp := @smtp_ret.
#[global] Instance Smtp_bind : MBind Smtp := fun A B k m => smtp_bind m k.

Definition call (c : SmtpCall) : Smtp unit :=
  fun srv log =>
    (log ++ [c],
     match srv log c with
     | None => Returns tt
     | Some e => Raises e
     end).

(** [try: m  except Exception: pass] *)
Definition try_except_pass (m : Smtp unit) : Smtp unit :=
  fun srv log =>
    match m srv log with
    | (log', _) => (log', Returns tt)
    end.

(** [with smtplib.SMTP(host, port, timeout=t) as server: body].
    The constructor connects; when it raises, the block is not entered.
    Leaving the block, normally or by an exception, sends QUIT; an exception
    of QUIT itself replaces the outcome of the body. *)
Definition with_SMTP {A} (host : string) (port timeout : Z) (body : Smtp A) : Smtp A :=
  fun srv log =>
    match call (SMTP_connect host port timeout) srv log with
    | (log1, Raises e) => (log1, Raises e)
    | (log1, Returns _) =>
        match body srv log1 with
        | (log2, r) =>
            match call SMTP_quit srv log2 with
            | (log3, Raises e) => (log3, Raises e)
            | (log3, Returns _) => (log3, r)
            end
        end
    end.

(** ** src/main.py: [send_inquiry_email] (lines 77-109) *)

Definition LF : string := String (ascii_of_nat 10) EmptyString.

Definition subject_of (inquiry : Inquiry) : string :=
  "New PsychSphere Inquiry from " +:+ name inquiry.

Definition html_body_of (inquiry : Inquiry) : string :=
  LF +:+
  "    <h2>New Inquiry</h2>" +:+ LF +:+
  "    <p><strong>Name:</strong> " +:+ name inquiry +:+ "</p>" +:+ LF +:+
  "    <p><strong>Email:</strong> " +:+ email inquiry +:+ "</p>" +:+ LF +:+
  "    <p><strong>Phone:</strong> " +:+ py_or_str (phone inquiry) "-" +:+ " </p>" +:+ LF +:+
  "    <p><strong>Newsletter:</strong> " +:+
       (if newsletter_opt_in inquiry then "Yes" else "No") +:+ "</p>" +:+ LF +:+
  "    <p><strong>Source:</strong> " +:+ py_or_str (source inquiry) "website" +:+ "</p>" +:+ LF +:+
  "    <hr/>" +:+ LF +:+
  "    <p>" +:+ message inquiry +:+ "</p>" +:+ LF +:+
  "    ".

(** What lines 96-100 put into the message. The calls of the email package
    among these lines that can raise are steps of [send_inquiry_email]. *)
Definition build_message (cfg : Settings) (to_email : string) (inquiry : Inquiry) : Message :=
  {| msg_subtype := "alternative";
     Subject := subject_of inquiry;
     From := (FROM_NAME cfg, FROM_EMAIL cfg);
     To := to_email;
     parts := [("html", html_body_of inquiry)] |}.

(** The email package, as far as its calls can raise. Each answer is [None]
    when the call returns and [Some e] when it raises [e]:
    [formataddr] on the pair of sender name and address (line 98; it raises
    for an address that is not ASCII), [MIMEText] on a text and a subtype
    (line 100), and [msg.as_string()] on the assembled message (line 109; it
    raises for a header that holds an embedded header line). What the calls
    return is held by the record [Message]. *)
Record EmailPackage := {
  formataddr : string * string -> option Exn;
  MIMEText : string -> string -> option Exn;
  as_string : Message -> option Exn
}.

(** A call of the email package inside code that talks to the server: it
    makes no call on the connection. *)
Definition package (answer : option Exn) : Smtp unit :=
  fun _ log =>
    (log,
     match answer with
     | None => Returns tt
     | Some e => Raises e
     end).

(** The calls of a log, each with the answer the server gave it; [before]
    holds the calls made earlier on the connection. *)
Fixpoint answers (srv : SmtpServer) (before log : list SmtpCall)
    : list (SmtpCall * option Exn) :=
  match log with
  | [] => []
  | c :: rest => (c, srv before c) :: answers srv (before ++ [c]) rest
  end.

Definition is_sendmail (c : SmtpCall) : bool :=
  match c with
  | SMTP_sendmail _ _ _ => true
  | _ => false
  end.

(** ** src/schemas.py: validation of a request body against [Inquiry] *)

(** A member of the JSON body, at the type the schema gives the field:
    absent, [null], or a value. *)
Inductive Raw (A : Type) : Type :=
| Absent
| Null
| Given (a : A).
Arguments Absent {A}.
Arguments Null {A}.
Arguments Given {A} a.

Record Submission := {
  raw_name : Raw string;
  raw_email : Raw string;
  raw_phone : Raw string;
  raw_message : Raw string;
  raw_source : Raw string;
  raw_newsletter_opt_in : Raw bool
}.

Inductive ErrorType :=
| missing
| string_type
| bool_type
| string_too_short (min_length : nat)
| value_error.

(** One entry of the 422 body: the field it is about and what is wrong. *)
Record ErrorDetail := {
  loc : string;
  err_type : ErrorType
}.

(** [str = Field(..., min_length=n)] *)
Definition required_str (min_length : nat) (v : Raw string) : string + ErrorType :=
  match v with
  | Absent => inr missing
  | Null => inr string_type
  | Given s =>
      if (String.length s <? min_length)%nat
      then inr (string_too_short min_length)
      else inl s
  end.

(** [Optional[str] = Field(default)] *)
Definition optional_str (default : option string) (v : Raw string) : option string :=
  match v with
  | Absent => default
  | Null => None
  | Given s => Some s
  end.

(** [bool = Field(default)] *)
Definition defaulted_bool (default : bool) (v : Raw bool) : bool + ErrorType :=
  match v with
  | Absent => inl default
  | Null => inr bool_type
  | Given b => inl b
  end.

Definition errors_at {A} (field : string) (r : A + ErrorType) : list ErrorDetail :=
  match r with
  | inl _ => []
  | inr t => [{| loc := field; err_type := t |}]
  end.

(** ** The document store *)

Inductive ObjectId := Oid (n : N).

(** Values held by a document. *)
Inductive Value :=
| VNone
| VStr (s : string)
| VBool (b : bool)
| VObjectId (oid : ObjectId).

(** Modelled from the spec: the text form of a store-assigned identifier
    ([database.py] is not among the sources). The identifier is rendered in
    hexadecimal. *)
Definition ObjectId_str (oid : ObjectId) : string :=
  match oid with
  | Oid n => NilZero.string_of_uint (N.to_hex_uint n)
  end.

(** Python's [str(v)]. *)
Definition str (v : Value) : string :=
  match v with
  | VNone => "None"
  | VStr s => s
  | VBool true => "True"
  | VBool false => "False"
  | VObjectId oid => ObjectId_str oid
  end.

Definition of_optional (x : option string) : Value :=
  match x with
  | Some s => VStr s
  | None => VNone
  end.

(** The attributes of an [Inquiry] as a document. *)
Definition model_dump (data : Inquiry) : gmap string Value :=
  list_to_map
    [("name", VStr (name data));
     ("email", VStr (email data));
     ("phone", of_optional (phone data));
     ("message", VStr (message data));
     ("source", of_optional (source data));
     ("newsletter_opt_in", VBool (newsletter_opt_in data))].

(** The store: its collections by name, and the next identifier it assigns. *)
Record Store := {
  collections : gmap string (list (gmap string Value));
  next_id : N
}.

Definition collection (db : Store) (collection_name : string) : list (gmap string Value) :=
  match collections db !! collection_name with
  | Some docs => docs
  | None => []
  end.

(** Modelled from the spec: [create_document] of [database.py], which is not
    among the sources. Spec 4.2: insert appends a new record to the
    collection and returns a store-assigned unique identifier; it fails with
    a storage error if the store is unreachable or rejects the write. Spec 6:
    a document holds exactly the Inquiry attributes plus the identifier.
    [fault] is the error the store raises during this call, if any. *)
Definition create_document (fault : option Exn) (db : Store)
    (collection_name : string) (data : Inquiry) : Result string * Store :=
  match fault with
  | Some e => (Raises e, db)
  | None =>
      let oid := Oid (next_id db) in
      let doc := <["_id" := VObjectId oid]> (model_dump data) in
      (Returns (ObjectId_str oid),
       {| collections :=
            <[collection_name := collection db collection_name ++ [doc]]> (collections db);
          next_id := N.succ (next_id db) |})
  end.

(** Modelled from the spec: [get_documents] of [database.py], which is not
    among the sources, called with the empty filter. Spec 4.2: list returns
    up to [limit] records of the collection, in no particular order. *)
Definition get_documents (fault : option Exn) (db : Store)
    (collection_name : string) (limit : Z) : Result (list (gmap string Value)) :=
  match fault with
  | Some e => Raises e
  | None => Returns (take (Z.to_nat limit) (collection db collection_name))
  end.

(** ** HTTP responses *)

(** A member of a JSON object sent back to the client. *)
Inductive Member :=
| Str (s : string)
| Documents (docs : list (gmap string Value))
| Errors (errs : list ErrorDetail).

(** A response: its status and the members of its JSON object. *)
Record Response := {
  status_code : Z;
  body : list (string * Member)
}.

(** What a path operation does: return a value or raise [HTTPException]. *)
Inductive Outcome :=
| Return (content : list (string * Member))
| HTTPException (status_code : Z) (detail : string).

(** The framework's rendering of an outcome. *)
Definition respond (o : Outcome) : Response :=
  match o with
  | Return content => {| status_code := 200; body := content |}
  | HTTPException code detail =>
      {| status_code := code; body := [("detail", Str detail)] |}
  end.

(** The framework's answer to a body that fails validation. *)
Definition unprocessable (errs : list ErrorDetail) : Response :=
  {| status_code := 422; body := [("detail", Errors errs)] |}.

(** A task given to [background_tasks.add_task]. *)
Inductive Task :=
| Task_send_inquiry_email (inquiry : Inquiry).

(** ** src/main.py: path operations *)

(** [create_inquiry] (lines 112-121). *)
Definition create_inquiry (fault : option Exn) (db : Store) (inquiry : Inquiry)
    (background_tasks : list Task) : Outcome * Store * list Task :=
  match create_document fault db "inquiry" inquiry with
  | (Returns inserted_id, db') =>
      (* Fire-and-forget email notify *)
      let background_tasks' := background_tasks ++ [Task_send_inquiry_email inquiry] in
      (Return [("status", Str "ok"); ("id", Str inserted_id)], db', background_tasks')
  | (Raises e, db') =>
      (HTTPException 500 e, db', background_tasks)
  end.

(** The loop of [list_inquiries]: [if "_id" in d: d["_id"] = str(d["_id"])]. *)
Definition convert_id (d : gmap string Value) : gmap string Value :=
  match d !! "_id" with
  | Some v => <["_id" := VStr (str v)]> d
  | None => d
  end.

(** A document as the store holds it: its identifier is of the store's own
    type. *)
Definition has_object_id (d : gmap string Value) : Prop :=
  exists oid, d !! "_id" = Some (VObjectId oid).

(** [list_inquiries] (lines 124-135). *)
Definition list_inquiries (fault : option Exn) (db : Store) (limit : Z) : Outcome :=
  match get_documents fault db "inquiry" limit with
  | Returns docs => Return [("items", Documents (map convert_id docs))]
  | Raises e => HTTPException 500 e
  end.

(** [GET /inquiries]: the query parameter [limit: int = 50]. *)
Definition get_inquiries (fault : option Exn) (db : Store) (limit : option Z) : Response :=
  respond (list_inquiries fault db (match limit with Some n => n | None => 50 end)).

(** What one request to [POST /inquiries] leaves behind: the response, the
    store, and the runs of the background tasks, which the framework starts
    once the response has been sent. *)
Record Served := {
  response : Response;
  store : Store;
  background : list (list SmtpCall * Result unit)
}.

(** ** src/main.py: [test_database] (lines 35-64) *)

(** [s[:n]]: the first [n] characters of [s], all of it when it is shorter. *)
Fixpoint slice_to (n : nat) (s : string) : string :=
  match n, s with
  | S n', String c s' => String c (slice_to n' s')
  | _, _ => EmptyString
  end.

(** The object [db] that main.py imports, as [test_database] uses it:
    reading [db.name] gives the attribute, finds no such attribute
    ([hasattr] is false), or raises; [db.list_collection_names()] returns the
    names or raises. *)
Record Database := {
  db_name : Result (option string);
  list_collection_names : Result (list string)
}.

(** Values held by the diagnostic object. *)
Inductive Diagnostic :=
| DNone
| DStr (s : string)
| DList (names : list string).

(** [test_database]. The literals hold the bytes of the source text; the
    function only concatenates them. [db] is [None] when the module-level
    [db] is. *)
Definition test_database (db : option Database) (environ : gmap string string)
    : gmap string Diagnostic :=
  let response : gmap string Diagnostic :=
    list_to_map
      [("backend", DStr "✅ Running");
       ("database", DStr "❌ Not Available");
       ("database_url", DNone);
       ("database_name", DNone);
       ("connection_status", DStr "Not Connected");
       ("collections", DList [])] in
  match db with
  | Some d =>
      let response := <["database" := DStr "✅ Available"]> response in
      let response :=
        <["database_url" :=
            DStr (if truthy (getenv environ "DATABASE_URL")
                  then "✅ Set" else "❌ Not Set")]> response in
      match db_name d with
      | Returns attribute =>
          let response :=
            <["database_name" :=
                DStr (match attribute with
                      | Some n => n
                      | None => "✅ Connected"
                      end)]> response in
          let response := <["connection_status" := DStr "Connected"]> response in
          match list_collection_names d with
          | Returns collections =>
              let response := <["collections" := DList (take 10 collections)]> response in
              <["database" := DStr "✅ Connected & Working"]> response
          | Raises e =>
              <["database" :=
                  DStr ("⚠️  Connected but Error: " +:+ slice_to 80 e)]> response
          end
      | Raises e =>
          <["database" := DStr ("❌ Error: " +:+ slice_to 80 e)]> response
      end
  | None =>
      <["database" := DStr "⚠️  Available but not initialized"]> response
  end.

(** ** Sample data for the examples *)

(** A stand-in for the address check: an address is text with an at sign. *)
Definition sample_validate_email (s : string) : option string :=
  if existsb (Ascii.eqb "@"%char) (list_ascii_of_string s) then Some s else None.

Definition sample_int (s : string) : Z := 587.

Definition jo : Submission :=
  {| raw_name := Given "Jo";
     raw_email := Given "jo@example.com";
     raw_phone := Absent;
     raw_message := Given "Hello there";
     raw_source := Absent;
     raw_newsletter_opt_in := Absent |}.

Definition jo_inquiry : Inquiry :=
  {| name := "Jo";
     email := "jo@example.com";
     phone := None;
     message := "Hello there";
     source := Some "website";
     newsletter_opt_in := false |}.

(** An inquiry with markup in its fields. *)
Definition markup_inquiry : Inquiry :=
  {| name := "<b>Jo</b>";
     email := "jo@example.com";
     phone := Some "555-0100";
     message := "<script>alert(1)</script>";
     source := Some "ad&campaign";
     newsletter_opt_in := true |}.

Definition one_letter_name : Submission :=
  {| raw_name := Given "J";
     raw_email := Given "jo@example.com";
     raw_phone := Absent;
     raw_message := Given "Hello there";
     raw_source := Absent;
     raw_newsletter_opt_in := Absent |}.

Definition no_message : Submission :=
  {| raw_name := Given "Jo";
     raw_email := Given "jo@example.com";
     raw_phone := Absent;
     raw_message := Absent;
     raw_source := Absent;
     raw_newsletter_opt_in := Absent |}.

Definition empty_store : Store :=
  {| collections := ∅; next_id := 0%N |}.

Definition mail_settings : Settings :=
  {| SMTP_HOST := Some "smtp.example.com";
     SMTP_PORT := 587;
     SMTP_USER := Some "mailer";
     SMTP_PASS := Some "secret";
     TO_EMAIL := Some "owner@example.com";
     FROM_NAME := "PsychSphere Inquiries";
     FROM_EMAIL := "mailer" |}.


(** The sender address holds a character outside ASCII (code 246). *)
Definition umlaut_settings : Settings :=
  {| SMTP_HOST := Some "smtp.example.com";
     SMTP_PORT := 587;
     SMTP_USER := Some "mailer";
     SMTP_PASS := Some "secret";
     TO_EMAIL := Some "owner@example.com";
     FROM_NAME := "PsychSphere Inquiries";
     FROM_EMAIL := "j" +:+ String (ascii_of_nat 246) "rg@example.com" |}.

Definition no_mail_settings : Settings :=
  {| SMTP_HOST := None;
     SMTP_PORT := 587;
     SMTP_USER := None;
     SMTP_PASS := None;
     TO_EMAIL := None;
     FROM_NAME := "PsychSphere Inquiries";
     FROM_EMAIL := "no-reply@psychsphere.local" |}.

Definition sample_environ : gmap string string :=
  list_to_map [("SMTP_HOST", "smtp.example.com"); ("SMTP_USER", "mailer");
               ("FROM_EMAIL", ""); ("OWNER_EMAIL", "owner@example.com")].

(** A stand-in for the email package on which no call raises. *)
Definition lenient_mime : EmailPackage :=
  {| formataddr := fun _ => None;
     MIMEText := fun _ _ => None;
     as_string := fun _ => None |}.

(** Whether a header value holds an embedded header line: a line break
    followed by characters other than blank and tab and then a colon. *)
Fixpoint colon_in_run (s : string) (seen : bool) : bool :=
  match s with
  | EmptyString => false
  | String c s' =>
      if (Ascii.eqb c " " || Ascii.eqb c (ascii_of_nat 9))%bool then false
      else if (Ascii.eqb c ":" && seen)%bool then true
      else colon_in_run s' true
  end.

Fixpoint embedded_header (s : string) : bool :=
  match s with
  | EmptyString => false
  | String c s' =>
      ((if Ascii.eqb c (ascii_of_nat 10) then colon_in_run s' false else false)
       || embedded_header s')%bool
  end.

Definition is_ascii_text (s : string) : bool :=
  forallb (fun c => (nat_of_ascii c <? 128)%nat) (list_ascii_of_string s).

(** A stand-in for the email package as it treats the samples below:
    [formataddr] raises for an address with a character outside ASCII, and
    [msg.as_string()] raises for a subject that holds an embedded header
    line. *)
Definition strict_mime : EmailPackage :=
  {| formataddr :=
       fun pair =>
         if is_ascii_text (snd pair) then None
         else Some "'ascii' codec can't encode character";
     MIMEText := fun _ _ => None;
     as_string :=
       fun msg =>
         if embedded_header (Subject msg)
         then Some "header value appears to contain an embedded header"
         else None |}.

(** An inquiry whose name holds a line break followed by a header line. *)
Definition header_inquiry : Inquiry :=
  {| name := "Jo" +:+ LF +:+ "Bcc: evil@example.com";
     email := "jo@example.com";
     phone := None;
     message := "Hello there";
     source := Some "website";
     newsletter_opt_in := false |}.

(** A server on which every call returns. *)
Definition accepting : SmtpServer := fun _ _ => None.

(** A server without STARTTLS. *)
Definition refusing_starttls : SmtpServer :=
  fun _ c =>
    match c with
    | SMTP_starttls => Some "STARTTLS extension not supported by server."
    | _ => None
    end.

(** A server that rejects the message. *)
Definition refusing_sendmail : SmtpServer :=
  fun _ c =>
    match c with
    | SMTP_sendmail _ _ _ => Some "554 Transaction failed"
    | _ => None
    end.

(** A server that cannot be reached. *)
Definition refusing_connection : SmtpServer :=
  fun _ c =>
    match c with
    | SMTP_connect _ _ _ => Some "Connection refused"
    | _ => None
    end.

(** A server that rejects the credentials. *)
Definition refusing_login : SmtpServer :=
  fun _ c =>
    match c with
    | SMTP_login _ _ => Some "535 Authentication failed"
    | _ => None
    end.

(** A body without name and message. *)
Definition only_email : Submission :=
  {| raw_name := Absent;
     raw_email := Given "jo@example.com";
     raw_phone := Absent;
     raw_message := Absent;
     raw_source := Absent;
     raw_newsletter_opt_in := Absent |}.

(** A body with a null source and an empty phone. *)
Definition null_source : Submission :=
  {| raw_name := Given "Jo";
     raw_email := Given "jo@example.com";
     raw_phone := Given "";
     raw_message := Given "Hello there";
     raw_source := Null;
     raw_newsletter_opt_in := Absent |}.

Definition null_source_inquiry : Inquiry :=
  {| name := "Jo";
     email := "jo@example.com";
     phone := Some "";
     message := "Hello there";
     source := None;
     newsletter_opt_in := false |}.

(** A database with twelve collections. *)
Definition twelve_collections : Database :=
  {| db_name := Returns (Some "psychsphere");
     list_collection_names :=
       Returns ["c01"; "c02"; "c03"; "c04"; "c05"; "c06";
                "c07"; "c08"; "c09"; "c10"; "c11"; "c12"] |}.

(** A database whose listing fails. *)
Definition unreachable_database : Database :=
  {| db_name := Returns (Some "psychsphere");
     list_collection_names := Raises "ServerSelectionTimeoutError" |}.

Section App.

(** The address check behind [EmailStr]: the normalised address, or [None]
    for text that is not a syntactically valid address. *)
Variable validate_email : string -> option string.

(** Python's [int] on the text of a port number. *)
Variable py_int : string -> Z.

(** The email package in use. *)
Variable mime : EmailPackage.

(** [send_inquiry_email] (main.py lines 77-109). *)
Definition send_inquiry_email (cfg : Settings) (inquiry : Inquiry) : Smtp unit :=
  match if_truthy (SMTP_HOST cfg), if_truthy (TO_EMAIL cfg) with
  | Some host, Some to_email =>
      let msg := build_message cfg to_email inquiry in
      package (formataddr mime (From msg)) ;;
      package (MIMEText mime (html_body_of inquiry) "html") ;;
      with_SMTP host (SMTP_PORT cfg) 15
        (try_except_pass (call SMTP_starttls) ;;
         (match if_truthy (SMTP_USER cfg), if_truthy (SMTP_PASS cfg) with
          | Some user, Some password => call (SMTP_login user password)
          | _, _ => smtp_ret tt
          end) ;;
         package (as_string mime msg) ;;
         call (SMTP_sendmail (FROM_EMAIL cfg) [to_email] msg))
  | _, _ =>
      (* SMTP not configured; skip email silently *)
      smtp_ret tt
  end.

(** The calls made after STARTTLS: the login when both credentials are
    truthy; then, unless the login raised, sendmail when the message could
    be turned into text; then QUIT. *)
Definition calls_after_starttls (cfg : Settings) (inquiry : Inquiry) (srv : SmtpServer)
    (host to_email : string) : list SmtpCall :=
  let msg := build_message cfg to_email inquiry in
  let send :=
    match as_string mime msg with
    | None => [SMTP_sendmail (FROM_EMAIL cfg) [to_email] msg; SMTP_quit]
    | Some _ => [SMTP_quit]
    end in
  match if_truthy (SMTP_USER cfg), if_truthy (SMTP_PASS cfg) with
  | Some user, Some password =>
      SMTP_login user password ::
      match srv [SMTP_connect host (SMTP_PORT cfg) 15; SMTP_starttls]
                (SMTP_login user password) with
      | None => send
      | Some _ => [SMTP_quit]
      end
  | _, _ => send
  end.

(** Running a background task: a fresh connection to the server; the result
    is the log of calls and how the task ended. *)
Definition run_task (cfg : Settings) (srv : SmtpServer) (t : Task)
    : list SmtpCall * Result unit :=
  match t with
  | Task_send_inquiry_email inquiry => send_inquiry_email cfg inquiry srv []
  end.

(** [EmailStr = Field(...)] *)
Definition required_email (v : Raw string) : string + ErrorType :=
  match v with
  | Absent => inr missing
  | Null => inr string_type
  | Given s =>
      match validate_email s with
      | Some normalised => inl normalised
      | None => inr value_error
      end
  end.

(** Validation of a body against the model [Inquiry] (schemas.py lines
    12-22): every field is checked, and the errors of all fields are
    reported together, in the order of the fields. *)
Definition Inquiry_validate (sub : Submission) : Inquiry + list ErrorDetail :=
  let r_name := required_str 2 (raw_name sub) in
  let r_email := required_email (raw_email sub) in
  let r_message := required_str 5 (raw_message sub) in
  let r_newsletter := defaulted_bool false (raw_newsletter_opt_in sub) in
  match r_name, r_email, r_message, r_newsletter with
  | inl n, inl e, inl m, inl b =>
      inl {| name := n;
             email := e;
             phone := optional_str None (raw_phone sub);
             message := m;
             source := optional_str (Some "website") (raw_source sub);
             newsletter_opt_in := b |}
  | _, _, _, _ =>
      inr (errors_at "name" r_name ++ errors_at "email" r_email ++
           errors_at "message" r_message ++
           errors_at "newsletter_opt_in" r_newsletter)
  end.

(** The module-level constants of main.py (lines 68-74), read from the
    environment. *)
Definition settings (environ : gmap string string) : Settings :=
  let smtp_user := getenv environ "SMTP_USER" in
  {| SMTP_HOST := getenv environ "SMTP_HOST";
     SMTP_PORT := py_int (getenv_default environ "SMTP_PORT" "587");
     SMTP_USER := smtp_user;
     SMTP_PASS := getenv environ "SMTP_PASS";
     TO_EMAIL := py_or (getenv environ "TO_EMAIL") (getenv environ "OWNER_EMAIL");
     FROM_NAME := getenv_default environ "FROM_NAME" "PsychSphere Inquiries";
     FROM_EMAIL :=
       py_or_str (py_or (getenv environ "FROM_EMAIL") smtp_user)
         "no-reply@psychsphere.local" |}.

(** [POST /inquiries]: the framework validates the body against [Inquiry]
    and answers 422 itself when that fails; otherwise it calls
    [create_inquiry], sends the response, and then runs the tasks the
    handler scheduled. *)
Definition post_inquiries (cfg : Settings) (srv : SmtpServer) (fault : option Exn)
    (db : Store) (sub : Submission) : Served :=
  match Inquiry_validate sub with
  | inr errs =>
      {| response := unprocessable errs; store := db; background := [] |}
  | inl inquiry =>
      match create_inquiry fault db inquiry [] with
      | (Return content, db', tasks) =>
          {| response := respond (Return content);
             store := db';
             background := map (run_task cfg srv) tasks |}
      | (HTTPException code detail, db', _) =>
          {| response := respond (HTTPException code detail);
             store := db';
             background := [] |}
      end
  end.

(** Several valid requests in a row, each accepted by the store. *)
Fixpoint post_all (cfg : Settings) (srv : SmtpServer) (db : Store)
    (subs : list Submission) : Store :=
  match subs with
  | [] => db
  | sub :: rest => post_all cfg srv (store (post_inquiries cfg srv None db sub)) rest
  end.

(** ** Properties *)

(** *** Strings *)

Lemma append_assoc (s1 s2 s3 : string) : (s1 +:+ s2) +:+ s3 = s1 +:+ s2 +:+ s3.
Proof.
  induction s1 as [|c s1 IH]; [reflexivity|].
  change (String c ((s1 +:+ s2) +:+ s3) = String c (s1 +:+ s2 +:+ s3)).
  now rewrite IH.
Qed.

Lemma append_empty_r (s : string) : s +:+ "" = s.
Proof.
  induction s as [|c s IH]; [reflexivity|].
  change (String c (s +:+ "") = String c s). now rewrite IH.
Qed.

Lemma contains_after (s0 s sub : string) : contains s sub -> contains (s0 +:+ s) sub.
Proof.
  intros (pre & post & ->). exists (s0 +:+ pre), post. now rewrite append_assoc.
Qed.

(** Finds a row [label value close] of the body behind the four blanks that
    indent it. *)
Ltac find_row :=
  first
    [ match goal with
      | |- contains (_ +:+ ?value +:+ ?close +:+ ?rest) (_ +:+ ?value +:+ ?close) =>
          exists "    ", rest; rewrite !append_assoc; reflexivity
      end
    | apply contains_after; find_row ].

(** *** Truthiness *)

Lemma truthy_Some (x : option string) (s : string) :
  x = Some s -> s <> "" -> truthy x = true.
Proof. intros -> Hs. destruct s; [contradiction|reflexivity]. Qed.

Lemma if_truthy_Some (x : option string) (s : string) :
  x = Some s -> s <> "" -> if_truthy x = Some s.
Proof.
  intros Hx Hs. unfold if_truthy. now rewrite (truthy_Some x s Hx Hs).
Qed.


Lemma if_truthy_None (x : option string) :
  truthy x = false -> if_truthy x = None.
Proof. unfold if_truthy. now intros ->. Qed.

Lemma py_or_str_Some (x : option string) (s d : string) :
  x = Some s -> s <> "" -> py_or_str x d = s.
Proof. intros -> Hs. destruct s; [contradiction|reflexivity]. Qed.

Lemma py_or_str_falsy (x : option string) (d : string) :
  truthy x = false -> py_or_str x d = d.
Proof. destruct x as [[|c s]|]; [reflexivity|discriminate|reflexivity]. Qed.

(** *** The notification message *)

(** C10: the message built for an inquiry has one part of subtype html whose
    text holds the rows for name, email, phone (a dash when there is none),
    newsletter flag (Yes or No), source (website when there is none) and
    message; each value is the text of the field itself, unchanged, so markup
    in it is not escaped; the subject ends with the name. *)
Theorem notification_shows_inquiry (cfg : Settings) (to_email : string) (inquiry : Inquiry) :
  parts (build_message cfg to_email inquiry) = [("html", html_body_of inquiry)] /\
  Subject (build_message cfg to_email inquiry) = subject_of inquiry /\
  contains (subject_of inquiry) (name inquiry) /\
  contains (html_body_of inquiry)
    ("<p><strong>Name:</strong> " +:+ name inquiry +:+ "</p>") /\
  contains (html_body_of inquiry)
    ("<p><strong>Email:</strong> " +:+ email inquiry +:+ "</p>") /\
  (forall p, phone inquiry = Some p -> p <> "" ->
     contains (html_body_of inquiry) ("<p><strong>Phone:</strong> " +:+ p +:+ " </p>")) /\
  (truthy (phone inquiry) = false ->
     contains (html_body_of inquiry) ("<p><strong>Phone:</strong> " +:+ "-" +:+ " </p>")) /\
  contains (html_body_of inquiry)
    ("<p><strong>Newsletter:</strong> " +:+
     (if newsletter_opt_in inquiry then "Yes" else "No") +:+ "</p>") /\
  (forall s, source inquiry = Some s -> s <> "" ->
     contains (html_body_of inquiry) ("<p><strong>Source:</strong> " +:+ s +:+ "</p>")) /\
  (truthy (source inquiry) = false ->
     contains (html_body_of inquiry)
       ("<p><strong>Source:</strong> " +:+ "website" +:+ "</p>")) /\
  contains (html_body_of inquiry) ("<p>" +:+ message inquiry +:+ "</p>").
Proof.
  split; [reflexivity|]. split; [reflexivity|].
  split. { exists "New PsychSphere Inquiry from ", "". unfold subject_of.
           now rewrite append_empty_r. }
  unfold html_body_of.
  split; [find_row|]. split; [find_row|].
  split. { intros p Hp Hne. rewrite (py_or_str_Some _ p "-" Hp Hne). find_row. }
  split. { intros Hf. rewrite (py_or_str_falsy _ "-" Hf). find_row. }
  split; [find_row|].
  split. { intros s Hs Hne. rewrite (py_or_str_Some _ s "website" Hs Hne). find_row. }
  split. { intros Hf. rewrite (py_or_str_falsy _ "website" Hf). find_row. }
  find_row.
Qed.

(** *** The notifier *)

(** Unfolds the calls of [send_inquiry_email] down to the answers of the
    server and of the email package. *)
Ltac run_smtp :=
  unfold send_inquiry_email, with_SMTP, try_except_pass, call, package, mbind,
    Smtp_bind, smtp_bind, smtp_ret; simpl.

Lemma send_unconfigured (cfg : Settings) (inquiry : Inquiry) (srv : SmtpServer)
    (log : list SmtpCall) :
  truthy (SMTP_HOST cfg) = false \/ truthy (TO_EMAIL cfg) = false ->
  send_inquiry_email cfg inquiry srv log = (log, Returns tt).
Proof.
  intros [H|H]; unfold send_inquiry_email; rewrite (if_truthy_None _ H);
    [|destruct (if_truthy (SMTP_HOST cfg))]; reflexivity.
Qed.

Lemma send_attempt_calls (cfg : Settings) (inquiry : Inquiry) (srv : SmtpServer)
    (host to_email : string) :
  SMTP_HOST cfg = Some host -> host <> "" ->
  TO_EMAIL cfg = Some to_email -> to_email <> "" ->
  formataddr mime (FROM_NAME cfg, FROM_EMAIL cfg) = None ->
  MIMEText mime (html_body_of inquiry) "html" = None ->
  srv [] (SMTP_connect host (SMTP_PORT cfg) 15) = None ->
  fst (send_inquiry_email cfg inquiry srv []) =
    SMTP_connect host (SMTP_PORT cfg) 15 :: SMTP_starttls ::
    calls_after_starttls cfg inquiry srv host to_email.
Proof.
  intros Hh Hhne Ht Htne Hfrom Htext Hconn.
  unfold send_inquiry_email, calls_after_starttls.
  rewrite (if_truthy_Some _ _ Hh Hhne), (if_truthy_Some _ _ Ht Htne).
  run_smtp. rewrite Hfrom, Htext, Hconn.
  destruct (if_truthy (SMTP_USER cfg)) as [user|];
    [destruct (if_truthy (SMTP_PASS cfg)) as [password|]|]; simpl.
  - destruct (srv _ (SMTP_login user password)); simpl.
    + now destruct (srv _ SMTP_quit).
    + destruct (as_string mime _); simpl.
      * now destruct (srv _ SMTP_quit).
      * now destruct (srv _ (SMTP_sendmail _ _ _)), (srv _ SMTP_quit).
  - destruct (as_string mime _); simpl.
    + now destruct (srv _ SMTP_quit).
    + now destruct (srv _ (SMTP_sendmail _ _ _)), (srv _ SMTP_quit).
  - destruct (as_string mime _); simpl.
    + now destruct (srv _ SMTP_quit).
    + now destruct (srv _ (SMTP_sendmail _ _ _)), (srv _ SMTP_quit).
Qed.

Lemma send_attempt_returns (cfg : Settings) (inquiry : Inquiry) (srv : SmtpServer) :
  formataddr mime (FROM_NAME cfg, FROM_EMAIL cfg) = None ->
  MIMEText mime (html_body_of inquiry) "html" = None ->
  (forall to_email, as_string mime (build_message cfg to_email inquiry) = None) ->
  (forall log c, c <> SMTP_starttls -> srv log c = None) ->
  snd (send_inquiry_email cfg inquiry srv []) = Returns tt.
Proof.
  intros Hfrom Htext Hstring Hall. run_smtp.
  destruct (if_truthy (SMTP_HOST cfg)) as [host|]; [|reflexivity].
  destruct (if_truthy (TO_EMAIL cfg)) as [to_email|]; [|reflexivity].
  rewrite Hfrom, Htext. rewrite !Hall by discriminate.
  destruct (if_truthy (SMTP_USER cfg)) as [user|];
    [destruct (if_truthy (SMTP_PASS cfg)) as [password|]|]; simpl;
    rewrite ?Hall by discriminate; simpl; rewrite Hstring; simpl;
    now rewrite !Hall by discriminate.
Qed.



(** Closes a goal whose hypothesis [H] puts a login among calls that hold
    none. *)
Ltac no_login H :=
  repeat (apply elem_of_cons in H as [H|H]; [discriminate H|]);
  apply elem_of_nil in H; contradiction.



(** C5: when the SMTP host or the recipient is not configured (unset, or
    set to the empty text), [send_inquiry_email] makes no call to the
    transport and returns without an error, for every inquiry and server;
    and a valid submission that the store accepts is answered 200 with its
    identifier, its background task having made no call. *)
Theorem unconfigured_notifier_is_silent (cfg : Settings) :
  truthy (SMTP_HOST cfg) = false \/ truthy (TO_EMAIL cfg) = false ->
  (forall inquiry srv log,
     send_inquiry_email cfg inquiry srv log = (log, Returns tt)) /\
  (forall srv db sub inquiry,
     Inquiry_validate sub = inl inquiry ->
     response (post_inquiries cfg srv None db sub) =
       {| status_code := 200;
          body := [("status", Str "ok"); ("id", Str (ObjectId_str (Oid (next_id db))))] |} /\
     background (post_inquiries cfg srv None db sub) = [([], Returns tt)]).
Proof.
  intros Hcfg. split.
  - intros inquiry srv log. now apply send_unconfigured.
  - intros srv db sub inquiry Hvalid.
    unfold post_inquiries. rewrite Hvalid. simpl.
    split; [reflexivity|]. f_equal. now apply send_unconfigured.
Qed.

(** C8: the sender address is FROM_EMAIL when that is set to a non-empty
    text, otherwise the SMTP user when that is, otherwise
    no-reply@psychsphere.local; the recipient is TO_EMAIL when that is set to
    a non-empty text, otherwise whatever OWNER_EMAIL holds. The message
    carries this sender address in its From header. *)
Theorem sender_and_recipient_fallbacks (environ : gmap string string) :
  (forall s, getenv environ "FROM_EMAIL" = Some s -> s <> "" ->
     FROM_EMAIL (settings environ) = s) /\
  (forall u, truthy (getenv environ "FROM_EMAIL") = false ->
     getenv environ "SMTP_USER" = Some u -> u <> "" ->
     FROM_EMAIL (settings environ) = u) /\
  (truthy (getenv environ "FROM_EMAIL") = false ->
   truthy (getenv environ "SMTP_USER") = false ->
   FROM_EMAIL (settings environ) = "no-reply@psychsphere.local") /\
  (forall t, getenv environ "TO_EMAIL" = Some t -> t <> "" ->
     TO_EMAIL (settings environ) = Some t) /\
  (truthy (getenv environ "TO_EMAIL") = false ->
   TO_EMAIL (settings environ) = getenv environ "OWNER_EMAIL") /\
  (forall to_email inquiry,
     From (build_message (settings environ) to_email inquiry) =
       (getenv_default environ "FROM_NAME" "PsychSphere Inquiries",
        FROM_EMAIL (settings environ))).
Proof.
  unfold settings; simpl. repeat split.
  - intros s Hs Hne. unfold py_or. rewrite (truthy_Some _ s Hs Hne).
    now apply py_or_str_Some.
  - intros u Hf Hu Hne. unfold py_or. rewrite Hf. now apply py_or_str_Some.
  - intros Hf Hu. unfold py_or. rewrite Hf. now apply py_or_str_falsy.
  - intros t Ht Hne. unfold py_or. now rewrite (truthy_Some _ t Ht Hne).
  - intros Hf. unfold py_or. now rewrite Hf.
Qed.

(** *** The store *)

Lemma ObjectId_str_nonempty (oid : ObjectId) : ObjectId_str oid <> "".
Proof.
  destruct oid as [n]. unfold ObjectId_str.
  destruct (N.to_hex_uint n); discriminate.
Qed.

Lemma collection_insert (cols : gmap string (list (gmap string Value)))
    (c c' : string) (docs : list (gmap string Value)) (n : N) :
  collection {| collections := <[c := docs]> cols; next_id := n |} c' =
    if decide (c = c') then docs
    else match cols !! c' with Some ds => ds | None => [] end.
Proof.
  unfold collection; simpl. rewrite lookup_insert. now destruct (decide (c = c')).
Qed.

Lemma convert_id_lookup (d0 : gmap string Value) :
  (forall v, d0 !! "_id" = Some v -> convert_id d0 !! "_id" = Some (VStr (str v))) /\
  (forall oid, convert_id d0 !! "_id" <> Some (VObjectId oid)).
Proof.
  unfold convert_id. destruct (d0 !! "_id") as [v|] eqn:E.
  - split.
    + intros v' [= <-]. apply lookup_insert_eq.
    + intros oid. rewrite lookup_insert_eq. discriminate.
  - split; [discriminate|]. intros oid. rewrite E. discriminate.
Qed.

(** *** POST /inquiries *)

Lemma post_invalid (cfg : Settings) (srv : SmtpServer) (fault : option Exn)
    (db : Store) (sub : Submission) (errs : list ErrorDetail) :
  Inquiry_validate sub = inr errs ->
  post_inquiries cfg srv fault db sub =
    {| response := {| status_code := 422; body := [("detail", Errors errs)] |};
       store := db;
       background := [] |}.
Proof. intros H. unfold post_inquiries. now rewrite H. Qed.

Lemma post_accepted (cfg : Settings) (srv : SmtpServer) (db : Store)
    (sub : Submission) (inquiry : Inquiry) :
  Inquiry_validate sub = inl inquiry ->
  post_inquiries cfg srv None db sub =
    {| response :=
         {| status_code := 200;
            body := [("status", Str "ok");
                     ("id", Str (ObjectId_str (Oid (next_id db))))] |};
       store :=
         {| collections :=
              <["inquiry" := collection db "inquiry" ++
                             [<["_id" := VObjectId (Oid (next_id db))]> (model_dump inquiry)]]>
                (collections db);
            next_id := N.succ (next_id db) |};
       background := [send_inquiry_email cfg inquiry srv []] |}.
Proof. intros H. unfold post_inquiries. now rewrite H. Qed.

Lemma post_storage_error (cfg : Settings) (srv : SmtpServer) (db : Store)
    (sub : Submission) (inquiry : Inquiry) (e : Exn) :
  Inquiry_validate sub = inl inquiry ->
  post_inquiries cfg srv (Some e) db sub =
    {| response := {| status_code := 500; body := [("detail", Str e)] |};
       store := db;
       background := [] |}.
Proof. intros H. unfold post_inquiries. now rewrite H. Qed.

Lemma validate_errors (sub : Submission) :
  match Inquiry_validate sub with
  | inl _ =>
      errors_at "name" (required_str 2 (raw_name sub)) = [] /\
      errors_at "email" (required_email (raw_email sub)) = [] /\
      errors_at "message" (required_str 5 (raw_message sub)) = []
  | inr errs =>
      errs = errors_at "name" (required_str 2 (raw_name sub)) ++
             errors_at "email" (required_email (raw_email sub)) ++
             errors_at "message" (required_str 5 (raw_message sub)) ++
             errors_at "newsletter_opt_in"
               (defaulted_bool false (raw_newsletter_opt_in sub))
  end.
Proof.
  unfold Inquiry_validate.
  destruct (required_str 2 (raw_name sub)), (required_email (raw_email sub)),
    (required_str 5 (raw_message sub)),
    (defaulted_bool false (raw_newsletter_opt_in sub)); simpl; auto.
Qed.

(** C1: a submission whose name is shorter than 2, or whose message is
    shorter than 5, or whose email is not a valid address, is answered 422
    with a list of errors that has an entry for each such field; the store is
    left as it was and no background task runs, so nothing is inserted and
    no call reaches the transport, whatever the store and the server would
    have answered. *)
Theorem invalid_submission_is_rejected (cfg : Settings) (srv : SmtpServer)
    (fault : option Exn) (db : Store) (sub : Submission) :
  (exists n, raw_name sub = Given n /\ (String.length n < 2)%nat) \/
  (exists m, raw_message sub = Given m /\ (String.length m < 5)%nat) \/
  (exists e, raw_email sub = Given e /\ validate_email e = None) ->
  exists errs,
    post_inquiries cfg srv fault db sub =
      {| response := {| status_code := 422; body := [("detail", Errors errs)] |};
         store := db;
         background := [] |} /\
    (forall n, raw_name sub = Given n -> (String.length n < 2)%nat ->
       {| loc := "name"; err_type := string_too_short 2 |} ∈ errs) /\
    (forall m, raw_message sub = Given m -> (String.length m < 5)%nat ->
       {| loc := "message"; err_type := string_too_short 5 |} ∈ errs) /\
    (forall e, raw_email sub = Given e -> validate_email e = None ->
       {| loc := "email"; err_type := value_error |} ∈ errs).
Proof.
  intros Hbad.
  assert (Hname : forall n, raw_name sub = Given n -> (String.length n < 2)%nat ->
            errors_at "name" (required_str 2 (raw_name sub)) =
              [{| loc := "name"; err_type := string_too_short 2 |}]).
  { intros n -> Hlen. unfold required_str.
    now rewrite (proj2 (Nat.ltb_lt _ _) Hlen). }
  assert (Hmsg : forall m, raw_message sub = Given m -> (String.length m < 5)%nat ->
            errors_at "message" (required_str 5 (raw_message sub)) =
              [{| loc := "message"; err_type := string_too_short 5 |}]).
  { intros m -> Hlen. unfold required_str.
    now rewrite (proj2 (Nat.ltb_lt _ _) Hlen). }
  assert (Hmail : forall e, raw_email sub = Given e -> validate_email e = None ->
            errors_at "email" (required_email (raw_email sub)) =
              [{| loc := "email"; err_type := value_error |}]).
  { intros e -> He. unfold required_email. now rewrite He. }
  pose proof (validate_errors sub) as Herrs.
  destruct (Inquiry_validate sub) as [inquiry|errs] eqn:Hv.
  - exfalso. destruct Herrs as (H1 & H2 & H3).
    destruct Hbad as [(n & Hn & Hlen)|[(m & Hm & Hlen)|(e & He & Hinv)]].
    + rewrite (Hname n Hn Hlen) in H1. discriminate.
    + rewrite (Hmsg m Hm Hlen) in H3. discriminate.
    + rewrite (Hmail e He Hinv) in H2. discriminate.
  - exists errs. split; [now apply post_invalid|]. subst errs.
    split; [|split].
    + intros n Hn Hlen. rewrite (Hname n Hn Hlen). rewrite !elem_of_app, elem_of_cons. auto.
    + intros m Hm Hlen. rewrite (Hmsg m Hm Hlen). rewrite !elem_of_app, elem_of_cons. auto.
    + intros e He Hinv. rewrite (Hmail e He Hinv). rewrite !elem_of_app, elem_of_cons. auto.
Qed.

(** C2: a valid submission that the store accepts is answered 200 with
    status ok and an identifier that is a non-empty text; the inquiry
    collection gains exactly one record, at its end, holding the attributes
    of the inquiry and the identifier whose text form was returned; every
    other collection is as before. *)
Theorem valid_submission_is_persisted (cfg : Settings) (srv : SmtpServer)
    (db : Store) (sub : Submission) (inquiry : Inquiry) :
  Inquiry_validate sub = inl inquiry ->
  exists (oid : ObjectId),
    response (post_inquiries cfg srv None db sub) =
      {| status_code := 200;
         body := [("status", Str "ok"); ("id", Str (ObjectId_str oid))] |} /\
    ObjectId_str oid <> "" /\
    collection (store (post_inquiries cfg srv None db sub)) "inquiry" =
      collection db "inquiry" ++ [<["_id" := VObjectId oid]> (model_dump inquiry)] /\
    (forall c, c <> "inquiry" ->
       collection (store (post_inquiries cfg srv None db sub)) c = collection db c).
Proof.
  intros Hvalid. exists (Oid (next_id db)).
  rewrite (post_accepted cfg srv db sub inquiry Hvalid). cbn [response store].
  split; [reflexivity|]. split; [apply ObjectId_str_nonempty|].
  split.
  - rewrite collection_insert. now rewrite decide_True.
  - intros c Hc. rewrite collection_insert. now rewrite decide_False.
Qed.

(** C3: a valid submission during which the store raises is answered 500
    with the text of the error as detail; the store is left as it was, no
    background task runs, and every later listing gives what it would have
    given without the request. *)
Theorem storage_error_leaves_no_record (cfg : Settings) (srv : SmtpServer)
    (db : Store) (sub : Submission) (inquiry : Inquiry) (e : Exn) :
  Inquiry_validate sub = inl inquiry ->
  response (post_inquiries cfg srv (Some e) db sub) =
    {| status_code := 500; body := [("detail", Str e)] |} /\
  store (post_inquiries cfg srv (Some e) db sub) = db /\
  background (post_inquiries cfg srv (Some e) db sub) = [] /\
  (forall fault limit,
     get_inquiries fault (store (post_inquiries cfg srv (Some e) db sub)) limit =
     get_inquiries fault db limit).
Proof.
  intros Hvalid. rewrite (post_storage_error cfg srv db sub inquiry e Hvalid).
  simpl. auto.
Qed.

(** C4: for a valid submission that the store accepts, the response is 200
    with status ok and the identifier whatever the SMTP server does: the
    background task is the one run of [send_inquiry_email], and whether that
    run returns or raises, the response and the store are the same for every
    server. *)
Theorem notification_cannot_change_response (cfg : Settings) (srv : SmtpServer)
    (db : Store) (sub : Submission) (inquiry : Inquiry) :
  Inquiry_validate sub = inl inquiry ->
  response (post_inquiries cfg srv None db sub) =
    {| status_code := 200;
       body := [("status", Str "ok"); ("id", Str (ObjectId_str (Oid (next_id db))))] |} /\
  background (post_inquiries cfg srv None db sub) =
    [send_inquiry_email cfg inquiry srv []] /\
  (forall srv',
     response (post_inquiries cfg srv' None db sub) =
       response (post_inquiries cfg srv None db sub) /\
     store (post_inquiries cfg srv' None db sub) =
       store (post_inquiries cfg srv None db sub)).
Proof.
  intros Hvalid. rewrite (post_accepted cfg srv db sub inquiry Hvalid). simpl.
  split; [reflexivity|]. split; [reflexivity|].
  intros srv'. now rewrite (post_accepted cfg srv' db sub inquiry Hvalid).
Qed.

(** *** GET /inquiries *)

Lemma post_all_collection (cfg : Settings) (srv : SmtpServer)
    (subs : list Submission) (db : Store) :
  Forall (fun sub => exists inquiry, Inquiry_validate sub = inl inquiry) subs ->
  exists docs,
    collection (post_all cfg srv db subs) "inquiry" = collection db "inquiry" ++ docs /\
    length docs = length subs /\
    Forall has_object_id docs.
Proof.
  intros Hvalid. revert db.
  induction Hvalid as [|sub subs [inquiry Hsub] _ IH]; intros db.
  - exists []. simpl. rewrite app_nil_r. auto.
  - simpl. destruct (IH (store (post_inquiries cfg srv None db sub)))
      as (docs & Hcol & Hlen & Hids).
    assert (Hstep : collection (store (post_inquiries cfg srv None db sub)) "inquiry" =
              collection db "inquiry" ++
              [<["_id" := VObjectId (Oid (next_id db))]> (model_dump inquiry)]).
    { rewrite (post_accepted cfg srv db sub inquiry Hsub). cbn [store].
      now rewrite collection_insert, decide_True. }
    rewrite Hstep, <- app_assoc in Hcol.
    eexists. split; [exact Hcol|]. split; [simpl; now rewrite Hlen|].
    constructor; [|exact Hids].
    eexists. apply lookup_insert_eq.
Qed.

Lemma listing (db : Store) (limit : Z) :
  get_inquiries None db (Some limit) =
    {| status_code := 200;
       body := [("items",
                 Documents (map convert_id
                              (take (Z.to_nat limit) (collection db "inquiry"))))] |}.
Proof. reflexivity. Qed.

(** C6, amended: for every limit that is not negative, GET /inquiries with
    that limit answers 200 with at most limit items, each of them a record of
    the inquiry collection whose identifier, if it has one, has been put in
    text form, so that no item carries an identifier of the store's own
    type; without the parameter the limit is 50; when the store raises, the
    answer is 500 with the text of the error; and after five valid
    submissions, each accepted by a store that held only records with
    identifiers, limit 2 gives exactly two items, each with a text
    identifier. *)
Theorem listing_is_capped (db : Store) :
  (forall limit, 0 <= limit ->
     exists items,
       get_inquiries None db (Some limit) =
         {| status_code := 200; body := [("items", Documents items)] |} /\
       Z.of_nat (length items) <= limit /\
       (forall d, d ∈ items ->
          (exists d0, d0 ∈ collection db "inquiry" /\ d = convert_id d0 /\
             forall v, d0 !! "_id" = Some v -> d !! "_id" = Some (VStr (str v))) /\
          (forall oid, d !! "_id" <> Some (VObjectId oid)))) /\
  get_inquiries None db None = get_inquiries None db (Some 50) /\
  (forall e limit,
     get_inquiries (Some e) db limit =
       {| status_code := 500; body := [("detail", Str e)] |}) /\
  (forall cfg srv subs,
     length subs = 5%nat ->
     Forall (fun sub => exists inquiry, Inquiry_validate sub = inl inquiry) subs ->
     Forall has_object_id (collection db "inquiry") ->
     exists a b,
       get_inquiries None (post_all cfg srv db subs) (Some 2) =
         {| status_code := 200; body := [("items", Documents [a; b])] |} /\
       (exists oid, a !! "_id" = Some (VStr (ObjectId_str oid))) /\
       (exists oid, b !! "_id" = Some (VStr (ObjectId_str oid)))).
Proof.
  split; [|split; [reflexivity|split; [reflexivity|]]].
  - intros limit Hlimit. eexists. split; [apply listing|]. split.
    + rewrite length_map, length_take. lia.
    + intros d (d0 & -> & Hd0)%list_elem_of_fmap. split.
      * exists d0. split; [|split; [reflexivity|apply convert_id_lookup]].
        revert Hd0. apply subseteq_take.
      * apply convert_id_lookup.
  - intros cfg srv subs Hfive Hvalid Hdb.
    destruct (post_all_collection cfg srv subs db Hvalid) as (docs & Hcol & Hlen & Hids).
    rewrite listing, Hcol.
    assert (Hall : Forall has_object_id (collection db "inquiry" ++ docs))
      by (apply Forall_app; auto).
    assert (Hlong : (2 <= length (collection db "inquiry" ++ docs))%nat)
      by (rewrite length_app; lia).
    destruct (collection db "inquiry" ++ docs) as [|x [|y l]]; simpl in Hlong; try lia.
    apply Forall_cons in Hall as [[ox Hx] Hall]. apply Forall_cons in Hall as [[oy Hy] _].
    exists (convert_id x), (convert_id y). split; [reflexivity|].
    split; [exists ox|exists oy].
    + apply (proj1 (convert_id_lookup x) _ Hx).
    + apply (proj1 (convert_id_lookup y) _ Hy).
Qed.

(** ** Further properties of the notifier *)

Lemma if_truthy_spec (x : option string) (s : string) :
  if_truthy x = Some s <-> x = Some s /\ s <> "".
Proof.
  unfold if_truthy. destruct x as [[|c t]|]; simpl; split;
    try discriminate; try (intros [[=] ?]; subst; try contradiction; fail).
  - intros [= <-]. split; [reflexivity|discriminate].
  - intros [[= <-] _]. reflexivity.
Qed.

Lemma if_truthy_None_iff (x : option string) :
  if_truthy x = None <-> truthy x = false.
Proof. unfold if_truthy. destruct x as [[|c t]|]; simpl; split; auto; discriminate. Qed.

(** X1: when the message has been assembled and the constructor
    [smtplib.SMTP] raises, [send_inquiry_email] raises the same exception
    having made no other call: no STARTTLS, no login, no sendmail and no
    QUIT. *)
Theorem connection_failure_stops_notification (cfg : Settings) (inquiry : Inquiry)
    (srv : SmtpServer) (host to_email : string) (e : Exn) :
  SMTP_HOST cfg = Some host -> host <> "" ->
  TO_EMAIL cfg = Some to_email -> to_email <> "" ->
  formataddr mime (FROM_NAME cfg, FROM_EMAIL cfg) = None ->
  MIMEText mime (html_body_of inquiry) "html" = None ->
  srv [] (SMTP_connect host (SMTP_PORT cfg) 15) = Some e ->
  send_inquiry_email cfg inquiry srv [] =
    ([SMTP_connect host (SMTP_PORT cfg) 15], Raises e).
Proof.
  intros Hh Hhne Ht Htne Hfrom Htext Hconn. unfold send_inquiry_email.
  rewrite (if_truthy_Some _ _ Hh Hhne), (if_truthy_Some _ _ Ht Htne).
  run_smtp. now rewrite Hfrom, Htext, Hconn.
Qed.

(** X2: when the message has been assembled, the connection has opened and
    the login raises, the message is not sent: the calls are connect,
    STARTTLS, login, QUIT, and [send_inquiry_email] raises (the exception of
    the login, or that of QUIT when QUIT raises too). *)
Theorem failed_login_sends_nothing (cfg : Settings) (inquiry : Inquiry)
    (srv : SmtpServer) (host to_email user password : string) (e : Exn) :
  SMTP_HOST cfg = Some host -> host <> "" ->
  TO_EMAIL cfg = Some to_email -> to_email <> "" ->
  SMTP_USER cfg = Some user -> user <> "" ->
  SMTP_PASS cfg = Some password -> password <> "" ->
  formataddr mime (FROM_NAME cfg, FROM_EMAIL cfg) = None ->
  MIMEText mime (html_body_of inquiry) "html" = None ->
  srv [] (SMTP_connect host (SMTP_PORT cfg) 15) = None ->
  srv [SMTP_connect host (SMTP_PORT cfg) 15; SMTP_starttls]
      (SMTP_login user password) = Some e ->
  fst (send_inquiry_email cfg inquiry srv []) =
    [SMTP_connect host (SMTP_PORT cfg) 15; SMTP_starttls;
     SMTP_login user password; SMTP_quit] /\
  List.filter is_sendmail (fst (send_inquiry_email cfg inquiry srv [])) = [] /\
  exists e', snd (send_inquiry_email cfg inquiry srv []) = Raises e' /\
    (srv [SMTP_connect host (SMTP_PORT cfg) 15; SMTP_starttls;
          SMTP_login user password] SMTP_quit = None -> e' = e).
Proof.
  intros Hh Hhne Ht Htne Hu Hune Hp Hpne Hfrom Htext Hconn Hlogin.
  unfold send_inquiry_email.
  rewrite (if_truthy_Some _ _ Hh Hhne), (if_truthy_Some _ _ Ht Htne),
    (if_truthy_Some _ _ Hu Hune), (if_truthy_Some _ _ Hp Hpne).
  run_smtp. rewrite Hfrom, Htext, Hconn. simpl. rewrite Hlogin. simpl.
  destruct (srv _ SMTP_quit) as [e'|] eqn:Hquit; simpl.
  - split; [reflexivity|]. split; [reflexivity|]. exists e'. split; [reflexivity|].
    discriminate.
  - split; [reflexivity|]. split; [reflexivity|]. exists e. split; reflexivity.
Qed.

(** Splits on every answer of the server and of the email package that the
    goal inspects. *)
Ltac split_answers :=
  repeat match goal with
         | |- context [match formataddr mime ?a with Some _ => _ | None => _ end] =>
             let E := fresh "Hanswer" in
             destruct (formataddr mime a) eqn:E; simpl
         | |- context [match MIMEText mime ?a ?b with Some _ => _ | None => _ end] =>
             let E := fresh "Hanswer" in
             destruct (MIMEText mime a b) eqn:E; simpl
         | |- context [match as_string mime ?m with Some _ => _ | None => _ end] =>
             let E := fresh "Hanswer" in
             destruct (as_string mime m) eqn:E; simpl
         | |- context [match ?srv ?l ?c with Some _ => _ | None => _ end] =>
             let E := fresh "Hanswer" in
             destruct (srv l c) eqn:E; simpl
         end.

(** X3: when the email package raises nowhere, the STARTTLS step is the only
    one whose failure is swallowed: [send_inquiry_email] returns normally
    exactly when every call it made other than STARTTLS returned (connect,
    login, sendmail and QUIT). *)
Theorem only_starttls_failure_is_swallowed (cfg : Settings) (inquiry : Inquiry)
    (srv : SmtpServer) :
  formataddr mime (FROM_NAME cfg, FROM_EMAIL cfg) = None ->
  MIMEText mime (html_body_of inquiry) "html" = None ->
  (forall to_email, as_string mime (build_message cfg to_email inquiry) = None) ->
  snd (send_inquiry_email cfg inquiry srv []) = Returns tt <->
  Forall (fun answered => fst answered = SMTP_starttls \/ snd answered = None)
    (answers srv [] (fst (send_inquiry_email cfg inquiry srv []))).
Proof.
  intros Hfrom Htext Hstring. run_smtp.
  destruct (if_truthy (SMTP_HOST cfg)) as [host|]; [|split; [constructor|reflexivity]].
  destruct (if_truthy (TO_EMAIL cfg)) as [to_email|]; [|split; [constructor|reflexivity]].
  rewrite Hfrom, Htext. simpl.
  destruct (if_truthy (SMTP_USER cfg)) as [user|];
    [destruct (if_truthy (SMTP_PASS cfg)) as [password|]|];
    rewrite ?Hstring; simpl;
    split_answers; rewrite ?Hstring; simpl; split_answers;
    (split;
     [ try discriminate; intros _;
       repeat (apply Forall_cons; split;
               [simpl; first [left; reflexivity|right; reflexivity|right; assumption]|]);
       constructor
     | intros Hall; try reflexivity; exfalso;
       repeat (apply Forall_cons in Hall as [[?|?] Hall]; simpl in *;
               try discriminate; try congruence) ]).
Qed.

(** X4: once the connection has opened, the last call is QUIT and it is the
    only QUIT, whatever the calls in between answered and whether or not
    the message could be turned into text: the block never leaves the
    connection open. *)
Theorem connection_is_always_closed (cfg : Settings) (inquiry : Inquiry)
    (srv : SmtpServer) (host to_email : string) :
  SMTP_HOST cfg = Some host -> host <> "" ->
  TO_EMAIL cfg = Some to_email -> to_email <> "" ->
  formataddr mime (FROM_NAME cfg, FROM_EMAIL cfg) = None ->
  MIMEText mime (html_body_of inquiry) "html" = None ->
  srv [] (SMTP_connect host (SMTP_PORT cfg) 15) = None ->
  exists between,
    fst (send_inquiry_email cfg inquiry srv []) =
      SMTP_connect host (SMTP_PORT cfg) 15 :: between ++ [SMTP_quit] /\
    SMTP_quit ∉ between.
Proof.
  intros Hh Hhne Ht Htne Hfrom Htext Hconn.
  rewrite (send_attempt_calls cfg inquiry srv host to_email
             Hh Hhne Ht Htne Hfrom Htext Hconn).
  unfold calls_after_starttls.
  destruct (if_truthy (SMTP_USER cfg)) as [user|];
    [destruct (if_truthy (SMTP_PASS cfg)) as [password|]|];
    [destruct (srv _ (SMTP_login user password))| |];
    try destruct (as_string mime _);
    match goal with
    | |- exists between, _ :: _ :: ?l = _ /\ _ =>
        exists (SMTP_starttls :: removelast l);
        split; [reflexivity|intros Hin; simpl in Hin; no_login Hin]
    end.
Qed.

(** X5: [send_inquiry_email] calls sendmail at most once, and only with the
    configured sender as envelope sender, the configured recipient as the
    one envelope recipient and as the To header, and the message built for
    this inquiry; this holds for every configuration and every server. *)
Theorem message_goes_only_to_recipient (cfg : Settings) (inquiry : Inquiry)
    (srv : SmtpServer) :
  (forall from_addr to_addrs msg,
     SMTP_sendmail from_addr to_addrs msg ∈ fst (send_inquiry_email cfg inquiry srv []) ->
     from_addr = FROM_EMAIL cfg /\
     TO_EMAIL cfg = Some (To msg) /\
     to_addrs = [To msg] /\
     msg = build_message cfg (To msg) inquiry) /\
  (length (List.filter is_sendmail (fst (send_inquiry_email cfg inquiry srv []))) <= 1)%nat.
Proof.
  run_smtp.
  destruct (if_truthy (SMTP_HOST cfg)) as [host|];
    [|split; [intros ? ? ? Hin; now apply elem_of_nil in Hin|simpl; lia]].
  destruct (if_truthy (TO_EMAIL cfg)) as [to_email|] eqn:Hto;
    [|split; [intros ? ? ? Hin; now apply elem_of_nil in Hin|simpl; lia]].
  apply if_truthy_spec in Hto as [Hto _].
  destruct (if_truthy (SMTP_USER cfg)) as [user|];
    [destruct (if_truthy (SMTP_PASS cfg)) as [password|]|];
    split_answers;
    (split;
     [ intros from_addr to_addrs msg Hin;
       repeat (apply elem_of_cons in Hin as [Hin|Hin];
               [try discriminate Hin; injection Hin as -> -> ->; auto|]);
       now apply elem_of_nil in Hin
     | simpl; lia ]).
Qed.

(** X18: a message that cannot be assembled or turned into text is not
    sent. When [formataddr] raises on the sender, [send_inquiry_email]
    raises that exception before any call reaches the transport; when the
    connection has opened and [msg.as_string()] raises, no sendmail is made
    and [send_inquiry_email] raises. *)
Theorem unsendable_message_is_not_sent (cfg : Settings) (inquiry : Inquiry)
    (srv : SmtpServer) (host to_email : string) (e : Exn) :
  SMTP_HOST cfg = Some host -> host <> "" ->
  TO_EMAIL cfg = Some to_email -> to_email <> "" ->
  (formataddr mime (FROM_NAME cfg, FROM_EMAIL cfg) = Some e ->
   send_inquiry_email cfg inquiry srv [] = ([], Raises e)) /\
  (formataddr mime (FROM_NAME cfg, FROM_EMAIL cfg) = None ->
   MIMEText mime (html_body_of inquiry) "html" = None ->
   srv [] (SMTP_connect host (SMTP_PORT cfg) 15) = None ->
   as_string mime (build_message cfg to_email inquiry) = Some e ->
   List.filter is_sendmail (fst (send_inquiry_email cfg inquiry srv [])) = [] /\
   exists e', snd (send_inquiry_email cfg inquiry srv []) = Raises e').
Proof.
  intros Hh Hhne Ht Htne. unfold send_inquiry_email.
  rewrite (if_truthy_Some _ _ Hh Hhne), (if_truthy_Some _ _ Ht Htne).
  run_smtp. split.
  - now intros ->.
  - intros -> -> -> ->. simpl.
    destruct (if_truthy (SMTP_USER cfg)) as [user|];
      [destruct (if_truthy (SMTP_PASS cfg)) as [password|]|];
      split_answers; (split; [reflexivity|eauto]).
Qed.

(** ** Further properties of the configuration *)

(** X6: whatever the environment holds, the sender address is not empty:
    it has at least one character. *)
Theorem sender_address_is_never_empty (environ : gmap string string) :
  (1 <= String.length (FROM_EMAIL (settings environ)))%nat.
Proof.
  unfold settings; simpl. unfold py_or_str.
  destruct (py_or _ _) as [[|c s]|]; simpl; lia.
Qed.

Lemma truthy_py_or (x y : option string) :
  truthy (py_or x y) = truthy x || truthy y.
Proof. unfold py_or. destruct (truthy x) eqn:E; [now rewrite E|reflexivity]. Qed.

Lemma if_truthy_is_Some (x : option string) :
  truthy x = true -> exists s, if_truthy x = Some s /\ x = Some s.
Proof.
  intros H. unfold if_truthy. rewrite H. destruct x as [s|]; [|discriminate].
  now exists s.
Qed.

(** X7: with the constants read from the environment, a notification is
    attempted (some call reaches the transport) exactly when SMTP_HOST is set
    to a non-empty text, so is TO_EMAIL or OWNER_EMAIL, and the message can be
    assembled ([formataddr] on the sender and [MIMEText] on the body
    return); the first call then opens a connection to that host, on the
    port read from SMTP_PORT (587 by default), with a timeout of 15. *)
Theorem notification_attempted_iff_configured (environ : gmap string string)
    (inquiry : Inquiry) (srv : SmtpServer) :
  (fst (send_inquiry_email (settings environ) inquiry srv []) <> [] <->
   truthy (getenv environ "SMTP_HOST") = true /\
   (truthy (getenv environ "TO_EMAIL") = true \/
    truthy (getenv environ "OWNER_EMAIL") = true) /\
   formataddr mime (FROM_NAME (settings environ), FROM_EMAIL (settings environ)) = None /\
   MIMEText mime (html_body_of inquiry) "html" = None) /\
  (forall c,
     head (fst (send_inquiry_email (settings environ) inquiry srv [])) = Some c ->
     exists host,
       getenv environ "SMTP_HOST" = Some host /\
       c = SMTP_connect host (py_int (getenv_default environ "SMTP_PORT" "587")) 15).
Proof.
  unfold send_inquiry_email.
  change (SMTP_HOST (settings environ)) with (getenv environ "SMTP_HOST").
  change (TO_EMAIL (settings environ))
    with (py_or (getenv environ "TO_EMAIL") (getenv environ "OWNER_EMAIL")).
  change (SMTP_PORT (settings environ))
    with (py_int (getenv_default environ "SMTP_PORT" "587")).
  destruct (truthy (getenv environ "SMTP_HOST")) eqn:Hhost.
  - destruct (if_truthy_is_Some _ Hhost) as (host & -> & Hh).
    destruct (truthy (py_or (getenv environ "TO_EMAIL") (getenv environ "OWNER_EMAIL")))
      eqn:Hto.
    + destruct (if_truthy_is_Some _ Hto) as (to_email & -> & _).
      rewrite truthy_py_or in Hto. apply orb_prop in Hto.
      run_smtp.
      repeat match goal with
             | |- context [match if_truthy ?x with _ => _ end] => destruct (if_truthy x)
             end;
        split_answers;
        (split;
         [ split;
           [ intros Hne; first [now contradiction Hne|now repeat split]
           | intros (_ & _ & Hf & Hm); first [discriminate|congruence] ]
         | intros c Hc; simpl in Hc; first [discriminate Hc|idtac];
           injection Hc as <-; exists host; now split ]).
    + rewrite (proj2 (if_truthy_None_iff _) Hto).
      rewrite truthy_py_or in Hto. apply orb_false_elim in Hto as [Hto Hown].
      split; [|discriminate].
      split; [intros Hne; now contradiction Hne|].
      intros [_ [[H|H] _]]; congruence.
  - rewrite (proj2 (if_truthy_None_iff _) Hhost).
    split; [|discriminate].
    split; [intros Hne; now contradiction Hne|intros [H _]; discriminate].
Qed.

(** ** Further properties of validation and of POST /inquiries *)

Lemma validate_accepted_fields (sub : Submission) (inquiry : Inquiry) :
  Inquiry_validate sub = inl inquiry ->
  exists n e m,
    raw_name sub = Given n /\ (2 <= String.length n)%nat /\
    raw_email sub = Given e /\ validate_email e = Some (email inquiry) /\
    raw_message sub = Given m /\ (5 <= String.length m)%nat /\
    raw_newsletter_opt_in sub <> Null /\
    inquiry =
      {| name := n;
         email := email inquiry;
         phone := optional_str None (raw_phone sub);
         message := m;
         source := optional_str (Some "website") (raw_source sub);
         newsletter_opt_in :=
           match raw_newsletter_opt_in sub with
           | Given b => b
           | _ => false
           end |}.
Proof.
  unfold Inquiry_validate, required_str, required_email, defaulted_bool.
  destruct (raw_name sub) as [| |n]; try discriminate.
  destruct (String.length n <? 2)%nat eqn:Hn; try discriminate.
  destruct (raw_email sub) as [| |e]; try discriminate.
  destruct (validate_email e) as [e'|] eqn:He; try discriminate.
  destruct (raw_message sub) as [| |m]; try discriminate.
  destruct (String.length m <? 5)%nat eqn:Hm; try discriminate.
  apply Nat.ltb_ge in Hn, Hm.
  destruct (raw_newsletter_opt_in sub) as [| |b]; try discriminate;
    intros [= <-]; exists n, e, m; simpl; repeat split; auto; discriminate.
Qed.

(** X8: among the bodies whose members have the JSON types the schema names
    (a text field absent, null or a text; the flag absent, null or a
    boolean), a body is accepted exactly when its name is a text of at least
    2 characters, its email a text that the address check accepts, its
    message a text of at least 5 characters, and its newsletter flag not
    null; the inquiry then holds the name and the message as given, the
    address as normalised by the check, phone and source as given (no phone
    and the source website when absent), and the flag (false when absent). *)
Theorem validation_accepts_iff (sub : Submission) (inquiry : Inquiry) :
  Inquiry_validate sub = inl inquiry <->
  exists n e m,
    raw_name sub = Given n /\ (2 <= String.length n)%nat /\
    raw_email sub = Given e /\ validate_email e = Some (email inquiry) /\
    raw_message sub = Given m /\ (5 <= String.length m)%nat /\
    raw_newsletter_opt_in sub <> Null /\
    inquiry =
      {| name := n;
         email := email inquiry;
         phone := optional_str None (raw_phone sub);
         message := m;
         source := optional_str (Some "website") (raw_source sub);
         newsletter_opt_in :=
           match raw_newsletter_opt_in sub with
           | Given b => b
           | _ => false
           end |}.
Proof.
  split; [apply validate_accepted_fields|].
  intros (n & e & m & Hn & Hnlen & He & Hvalid & Hm & Hmlen & Hflag & ->).
  unfold Inquiry_validate, required_str, required_email, defaulted_bool.
  rewrite Hn, He, Hm, Hvalid.
  rewrite (proj2 (Nat.ltb_ge _ _) Hnlen), (proj2 (Nat.ltb_ge _ _) Hmlen).
  destruct (raw_newsletter_opt_in sub); [reflexivity|contradiction|reflexivity].
Qed.

(** X9: a body that lacks the name, the email or the message is answered
    422 with an entry of type missing for each field it lacks; nothing is
    stored and no background task runs. *)
Theorem missing_field_is_cited (cfg : Settings) (srv : SmtpServer)
    (fault : option Exn) (db : Store) (sub : Submission) :
  raw_name sub = Absent \/ raw_email sub = Absent \/ raw_message sub = Absent ->
  exists errs,
    post_inquiries cfg srv fault db sub =
      {| response := {| status_code := 422; body := [("detail", Errors errs)] |};
         store := db;
         background := [] |} /\
    (raw_name sub = Absent -> {| loc := "name"; err_type := missing |} ∈ errs) /\
    (raw_email sub = Absent -> {| loc := "email"; err_type := missing |} ∈ errs) /\
    (raw_message sub = Absent -> {| loc := "message"; err_type := missing |} ∈ errs).
Proof.
  intros Hlacks.
  pose proof (validate_errors sub) as Herrs.
  destruct (Inquiry_validate sub) as [inquiry|errs] eqn:Hv.
  - exfalso. destruct Herrs as (H1 & H2 & H3).
    destruct Hlacks as [H|[H|H]]; rewrite H in *; discriminate.
  - exists errs. split; [now apply post_invalid|]. subst errs.
    repeat split; intros ->; simpl; rewrite ?elem_of_app, ?elem_of_cons; auto.
Qed.

(** X10: among the bodies whose members have the JSON types the schema
    names (a text field absent, null or a text; the flag absent, null or a
    boolean): when a body is rejected, the list of errors is not empty, has
    at most one entry per field, and every entry names one of name, email,
    message and newsletter_opt_in together with the reason the check of that
    field gave; a phone or a source of these types causes no entry. *)
Theorem validation_errors_are_sound (sub : Submission) (errs : list ErrorDetail) :
  Inquiry_validate sub = inr errs ->
  errs <> [] /\
  NoDup (loc <$> errs) /\
  (forall d, d ∈ errs ->
     loc d <> "phone" /\ loc d <> "source" /\
     ((loc d = "name" /\ required_str 2 (raw_name sub) = inr (err_type d)) \/
      (loc d = "email" /\ required_email (raw_email sub) = inr (err_type d)) \/
      (loc d = "message" /\ required_str 5 (raw_message sub) = inr (err_type d)) \/
      (loc d = "newsletter_opt_in" /\
       defaulted_bool false (raw_newsletter_opt_in sub) = inr (err_type d)))).
Proof.
  unfold Inquiry_validate.
  destruct (required_str 2 (raw_name sub)) as [?|t1],
    (required_email (raw_email sub)) as [?|t2],
    (required_str 5 (raw_message sub)) as [?|t3],
    (defaulted_bool false (raw_newsletter_opt_in sub)) as [?|t4];
    simpl; intros [= <-];
    (split; [discriminate|]; split;
     [ repeat (apply NoDup_cons; split;
               [let Hin := fresh in
                intros Hin;
                repeat (apply elem_of_cons in Hin as [Hin|Hin]; [discriminate Hin|]);
                now apply elem_of_nil in Hin|]);
       constructor
     | intros d Hd;
       repeat (apply elem_of_cons in Hd as [->|Hd];
               [simpl; split; [discriminate|]; split; [discriminate|];
                first [ left; split; reflexivity
                      | right; left; split; reflexivity
                      | right; right; left; split; reflexivity
                      | right; right; right; split; reflexivity ]|]);
       now apply elem_of_nil in Hd ]).
Qed.

(** X11: when the body has no source, a null source or an empty one, the
    notification shows the source website; when it has no phone, a null
    phone or an empty one, it shows a dash; when it has no newsletter flag,
    it shows No. *)
Theorem omitted_fields_in_notification (sub : Submission) (inquiry : Inquiry) :
  Inquiry_validate sub = inl inquiry ->
  (raw_source sub = Absent \/ raw_source sub = Null \/ raw_source sub = Given "" ->
   contains (html_body_of inquiry) "<p><strong>Source:</strong> website</p>") /\
  (raw_phone sub = Absent \/ raw_phone sub = Null \/ raw_phone sub = Given "" ->
   contains (html_body_of inquiry) "<p><strong>Phone:</strong> - </p>") /\
  (raw_newsletter_opt_in sub = Absent ->
   contains (html_body_of inquiry) "<p><strong>Newsletter:</strong> No</p>").
Proof.
  intros (n & e & m & _ & _ & _ & _ & _ & _ & _ & ->)%validate_accepted_fields.
  unfold html_body_of; simpl.
  split; [|split].
  - intros Hsource.
    assert (Hweb : py_or_str (optional_str (Some "website") (raw_source sub)) "website"
                   = "website")
      by (destruct Hsource as [->|[->| ->]]; reflexivity).
    rewrite Hweb.
    change "<p><strong>Source:</strong> website</p>"
      with ("<p><strong>Source:</strong> " +:+ "website" +:+ "</p>").
    find_row.
  - intros Hphone.
    assert (Hdash : py_or_str (optional_str None (raw_phone sub)) "-" = "-")
      by (destruct Hphone as [->|[->| ->]]; reflexivity).
    rewrite Hdash.
    change "<p><strong>Phone:</strong> - </p>"
      with ("<p><strong>Phone:</strong> " +:+ "-" +:+ " </p>").
    find_row.
  - intros ->.
    change "<p><strong>Newsletter:</strong> No</p>"
      with ("<p><strong>Newsletter:</strong> " +:+ "No" +:+ "</p>").
    find_row.
Qed.

(** X12: the answer to POST /inquiries is 200 exactly when the body is valid
    and the store accepts the write, 422 exactly when the body is invalid
    (also when the store would have failed: validation comes first), and 500
    exactly when the body is valid and the store raises; and every answer
    other than 200 leaves the store as it was and runs no background task. *)
Theorem only_success_leaves_a_trace (cfg : Settings) (srv : SmtpServer)
    (fault : option Exn) (db : Store) (sub : Submission) :
  (status_code (response (post_inquiries cfg srv fault db sub)) = 200 <->
   (exists inquiry, Inquiry_validate sub = inl inquiry) /\ fault = None) /\
  (status_code (response (post_inquiries cfg srv fault db sub)) = 422 <->
   exists errs, Inquiry_validate sub = inr errs) /\
  (status_code (response (post_inquiries cfg srv fault db sub)) = 500 <->
   (exists inquiry, Inquiry_validate sub = inl inquiry) /\ exists e, fault = Some e) /\
  (status_code (response (post_inquiries cfg srv fault db sub)) <> 200 ->
   store (post_inquiries cfg srv fault db sub) = db /\
   background (post_inquiries cfg srv fault db sub) = []).
Proof.
  destruct (Inquiry_validate sub) as [inquiry|errs] eqn:Hv.
  - destruct fault as [e|].
    + rewrite (post_storage_error cfg srv db sub inquiry e Hv). simpl.
      repeat split; try discriminate; eauto.
      * intros [_ [=]].
      * intros [? [=]].
    + rewrite (post_accepted cfg srv db sub inquiry Hv). simpl.
      repeat split; try discriminate; eauto; try contradiction.
      * intros [? [=]].
      * intros [_ [? [=]]].
  - rewrite (post_invalid cfg srv fault db sub errs Hv). simpl.
    repeat split; try discriminate; eauto.
    + intros [[? [=]] _].
    + intros [[? [=]] _].
Qed.

(** ** Further properties of GET /inquiries *)

Lemma convert_id_Some (d : gmap string Value) (v : Value) :
  d !! "_id" = Some v -> convert_id d = <["_id" := VStr (str v)]> d.
Proof. unfold convert_id. now intros ->. Qed.

Lemma convert_id_None (d : gmap string Value) :
  d !! "_id" = None -> convert_id d = d.
Proof. unfold convert_id. now intros ->. Qed.

(** X13: the conversion applied to each listed record changes nothing but
    the value under _id: every other key keeps its value, no key is added or
    removed, a record without _id is returned as it is, and converting a
    converted record changes nothing more. *)
Theorem convert_id_changes_only_the_id (d : gmap string Value) :
  (forall k, k <> "_id" -> convert_id d !! k = d !! k) /\
  dom (convert_id d) = dom d /\
  (d !! "_id" = None -> convert_id d = d) /\
  convert_id (convert_id d) = convert_id d.
Proof.
  destruct (d !! "_id") as [v|] eqn:Hid.
  - rewrite (convert_id_Some d v Hid).
    split; [|split; [|split]].
    + intros k Hk. now rewrite lookup_insert_ne.
    + apply dom_insert_lookup_L. now exists v.
    + discriminate.
    + rewrite (convert_id_Some _ (VStr (str v))) by apply lookup_insert_eq.
      simpl. now rewrite insert_insert_eq.
  - rewrite (convert_id_None d Hid). rewrite (convert_id_None d Hid).
    repeat split; reflexivity.
Qed.

(** ** Properties of [test_database] *)

Lemma slice_to_length (n : nat) (s : string) :
  String.length (slice_to n s) = Nat.min n (String.length s).
Proof.
  revert s. induction n as [|n IH]; intros [|c s]; simpl; auto.
Qed.

Lemma slice_to_prefix (n : nat) (s : string) :
  exists rest, s = slice_to n s +:+ rest.
Proof.
  revert s. induction n as [|n IH]; intros s.
  - exists s. now destruct s.
  - destruct s as [|c s]; [now exists ""|].
    destruct (IH s) as [rest Hrest]. exists rest.
    change (String c s = String c (slice_to n s +:+ rest)). now rewrite <- Hrest.
Qed.

(** X15: the diagnostic shows at most 10 collection names: the first 10 of
    those the database lists, in their order, when reading its name and
    listing both return; none when there is no database or one of the two
    raises. *)
Theorem test_database_shows_ten_collections (db : option Database)
    (environ : gmap string string) :
  exists shown,
    test_database db environ !! "collections" = Some (DList shown) /\
    (length shown <= 10)%nat /\
    (forall d attribute names,
       db = Some d -> db_name d = Returns attribute ->
       list_collection_names d = Returns names ->
       shown = take 10 names) /\
    (db = None \/
     (exists d e, db = Some d /\
        (db_name d = Raises e \/ list_collection_names d = Raises e)) ->
     shown = []).
Proof.
  unfold test_database.
  destruct db as [[[attribute|e] [names|e']]|]; simpl.
  - exists (take 10 names). split; [reflexivity|].
    split; [rewrite length_take; lia|]. split.
    + now intros d a ns [= <-] _ [= <-].
    + intros [[=]|(d & e & [= <-] & [[=]|[=]])].
  - exists []. split; [reflexivity|]. split; [simpl; lia|]. split.
    + intros d a ns [= <-] _ [=].
    + reflexivity.
  - exists []. split; [reflexivity|]. split; [simpl; lia|]. split.
    + intros d a ns [= <-] [=].
    + reflexivity.
  - exists []. split; [reflexivity|]. split; [simpl; lia|]. split.
    + intros d a ns [= <-] [=].
    + reflexivity.
  - exists []. split; [reflexivity|]. split; [simpl; lia|]. split.
    + intros d a ns [=].
    + reflexivity.
Qed.

(** Refutes an equation between two values that differ in their first
    bytes. *)
Ltac refute := let H := fresh in intros H; vm_compute in H; discriminate H.

(** X16: the diagnostic reports the database as connected and working
    exactly when there is a database, reading its name returns and listing
    its collections returns; it reports the connection as Connected exactly
    when there is a database and reading its name returns; and it never
    reports the initial text Not Available. *)
Theorem test_database_working_iff (db : option Database)
    (environ : gmap string string) :
  (test_database db environ !! "database" = Some (DStr "✅ Connected & Working") <->
   exists d attribute names,
     db = Some d /\ db_name d = Returns attribute /\
     list_collection_names d = Returns names) /\
  (test_database db environ !! "connection_status" = Some (DStr "Connected") <->
   exists d attribute, db = Some d /\ db_name d = Returns attribute) /\
  test_database db environ !! "database" <> Some (DStr "❌ Not Available").
Proof.
  unfold test_database.
  destruct db as [[[attribute|e] [names|e']]|]; simpl.
  - split; [|split].
    + split; [intros _; repeat eexists|intros _; reflexivity].
    + split; [intros _; repeat eexists|intros _; reflexivity].
    + refute.
  - split; [|split].
    + split; [refute|intros (d & a & ns & [= <-] & _ & [=])].
    + split; [intros _; repeat eexists|intros _; reflexivity].
    + refute.
  - split; [|split].
    + split; [refute|intros (d & a & ns & [= <-] & [=] & _)].
    + split; [refute|intros (d & a & [= <-] & [=])].
    + refute.
  - split; [|split].
    + split; [refute|intros (d & a & ns & [= <-] & [=] & _)].
    + split; [refute|intros (d & a & [= <-] & [=])].
    + refute.
  - split; [|split].
    + split; [refute|intros (d & a & ns & [=] & _)].
    + split; [refute|intros (d & a & [=] & _)].
    + refute.
Qed.

(** X17: when a call on the database raises, the diagnostic carries the
    first 80 characters of the text of the exception and no more: after
    Connected but Error when the listing raised (the connection is then
    reported as Connected), after Error when reading the name raised (the
    connection is then reported as Not Connected). *)
Theorem test_database_truncates_errors (d : Database) (environ : gmap string string)
    (e : Exn) :
  (String.length (slice_to 80 e) <= 80)%nat /\
  (exists rest, e = slice_to 80 e +:+ rest) /\
  (forall attribute,
     db_name d = Returns attribute -> list_collection_names d = Raises e ->
     test_database (Some d) environ !! "database" =
       Some (DStr ("⚠️  Connected but Error: " +:+ slice_to 80 e)) /\
     test_database (Some d) environ !! "connection_status" =
       Some (DStr "Connected")) /\
  (db_name d = Raises e ->
   test_database (Some d) environ !! "database" =
     Some (DStr ("❌ Error: " +:+ slice_to 80 e)) /\
   test_database (Some d) environ !! "connection_status" =
     Some (DStr "Not Connected")).
Proof.
  split; [rewrite slice_to_length; lia|].
  split; [apply slice_to_prefix|].
  unfold test_database. split.
  - intros attribute -> ->. split; reflexivity.
  - intros ->. split; reflexivity.
Qed.

End App.

(** ** Examples *)

(** The example of the spec: Jo's submission is valid. *)
Example jo_is_valid : Inquiry_validate sample_validate_email jo = inl jo_inquiry.
Proof. reflexivity. Qed.

(** The example of the spec: without a message, the answer is 422 and cites
    the missing field. *)
Example no_message_is_rejected :
  response (post_inquiries sample_validate_email strict_mime mail_settings accepting None
              empty_store no_message) =
    {| status_code := 422;
       body := [("detail", Errors [{| loc := "message"; err_type := missing |}])] |}.
Proof. reflexivity. Qed.

(** A name of one letter: 422 citing the name, nothing stored, nothing sent. *)
Lemma invalid_submission_is_rejected_witness :
  exists errs,
    post_inquiries sample_validate_email strict_mime mail_settings accepting None
      empty_store one_letter_name =
      {| response := {| status_code := 422; body := [("detail", Errors errs)] |};
         store := empty_store;
         background := [] |} /\
    {| loc := "name"; err_type := string_too_short 2 |} ∈ errs.
Proof.
  destruct (invalid_submission_is_rejected sample_validate_email strict_mime mail_settings
              accepting None empty_store one_letter_name) as (errs & Hpost & Hname & _).
  - left. exists "J". split; [reflexivity|simpl; lia].
  - exists errs. split; [exact Hpost|].
    apply (Hname "J"); [reflexivity|simpl; lia].
Defined.

Lemma valid_submission_is_persisted_witness :
  exists oid,
    response (post_inquiries sample_validate_email strict_mime mail_settings accepting None
                empty_store jo) =
      {| status_code := 200;
         body := [("status", Str "ok"); ("id", Str (ObjectId_str oid))] |} /\
    ObjectId_str oid <> "" /\
    collection (store (post_inquiries sample_validate_email strict_mime mail_settings accepting
                         None empty_store jo)) "inquiry" =
      collection empty_store "inquiry" ++
      [<["_id" := VObjectId oid]> (model_dump jo_inquiry)] /\
    (forall c, c <> "inquiry" ->
       collection (store (post_inquiries sample_validate_email strict_mime mail_settings accepting
                            None empty_store jo)) c =
       collection empty_store c).
Proof.
  apply (valid_submission_is_persisted sample_validate_email strict_mime mail_settings accepting
           empty_store jo jo_inquiry).
  reflexivity.
Defined.

Lemma storage_error_leaves_no_record_witness :
  response (post_inquiries sample_validate_email strict_mime mail_settings accepting
              (Some "Database not available") empty_store jo) =
    {| status_code := 500; body := [("detail", Str "Database not available")] |} /\
  store (post_inquiries sample_validate_email strict_mime mail_settings accepting
           (Some "Database not available") empty_store jo) = empty_store.
Proof.
  destruct (storage_error_leaves_no_record sample_validate_email strict_mime mail_settings
              accepting empty_store jo jo_inquiry "Database not available")
    as (Hresp & Hstore & _).
  - reflexivity.
  - split; [exact Hresp|exact Hstore].
Defined.

(** The server rejects the message, the task raises, the answer is 200. *)
Lemma notification_cannot_change_response_witness :
  response (post_inquiries sample_validate_email strict_mime mail_settings refusing_sendmail
              None empty_store jo) =
    {| status_code := 200;
       body := [("status", Str "ok"); ("id", Str (ObjectId_str (Oid 0)))] |} /\
  snd <$> background (post_inquiries sample_validate_email strict_mime mail_settings
                        refusing_sendmail None empty_store jo) =
    [Raises "554 Transaction failed"].
Proof.
  destruct (notification_cannot_change_response sample_validate_email strict_mime mail_settings
              refusing_sendmail empty_store jo jo_inquiry) as (Hresp & Hback & _).
  - reflexivity.
  - split; [exact Hresp|]. rewrite Hback. reflexivity.
Defined.

Lemma unconfigured_notifier_is_silent_witness :
  send_inquiry_email strict_mime no_mail_settings jo_inquiry refusing_sendmail [] = ([], Returns tt) /\
  status_code (response (post_inquiries sample_validate_email strict_mime no_mail_settings
                           refusing_sendmail None empty_store jo)) = 200.
Proof.
  destruct (unconfigured_notifier_is_silent sample_validate_email strict_mime no_mail_settings)
    as (Hsend & Hpost).
  - left. reflexivity.
  - split; [apply Hsend|].
    destruct (Hpost refusing_sendmail empty_store jo jo_inquiry) as (Hresp & _).
    + reflexivity.
    + rewrite Hresp. reflexivity.
Defined.

(** A limit of -1: the answer is 200 with no item, and 0 is more than -1. *)
Lemma listing_negative_limit :
  exists items,
    get_inquiries None empty_store (Some (-1)) =
      {| status_code := 200; body := [("items", Documents items)] |} /\
    ~ (Z.of_nat (length items) <= -1).
Proof. exists []. split; [reflexivity|]. simpl. lia. Qed.

(** Five times Jo, then limit 2: two items; and limit 3 gives at most 3. *)
Lemma listing_is_capped_witness :
  (exists items,
     get_inquiries None empty_store (Some 3) =
       {| status_code := 200; body := [("items", Documents items)] |} /\
     Z.of_nat (length items) <= 3) /\
  (exists a b,
     get_inquiries None
       (post_all sample_validate_email strict_mime mail_settings accepting empty_store
          [jo; jo; jo; jo; jo]) (Some 2) =
       {| status_code := 200; body := [("items", Documents [a; b])] |}).
Proof.
  destruct (listing_is_capped sample_validate_email strict_mime empty_store)
    as (Hcap & _ & _ & Hfive).
  split.
  - destruct (Hcap 3) as (items & Hget & Hlen & _); [lia|].
    exists items. split; [exact Hget|exact Hlen].
  - destruct (Hfive mail_settings accepting [jo; jo; jo; jo; jo])
      as (a & b & Hget & _).
    + reflexivity.
    + repeat constructor; exists jo_inquiry; reflexivity.
    + constructor.
    + exists a, b. exact Hget.
Defined.



Lemma sender_and_recipient_fallbacks_witness :
  FROM_EMAIL (settings sample_int sample_environ) = "mailer" /\
  TO_EMAIL (settings sample_int sample_environ) = Some "owner@example.com" /\
  FROM_EMAIL (settings sample_int ∅) = "no-reply@psychsphere.local".
Proof.
  destruct (sender_and_recipient_fallbacks sample_int sample_environ)
    as (_ & Huser & _ & _ & Hto & _).
  destruct (sender_and_recipient_fallbacks sample_int ∅)
    as (_ & _ & Hdefault & _).
  split; [|split].
  - apply Huser; [reflexivity|reflexivity|discriminate].
  - rewrite Hto; reflexivity.
  - apply Hdefault; reflexivity.
Defined.



(** Markup in the fields arrives in the body as it was typed. *)
Lemma notification_shows_inquiry_witness :
  contains (html_body_of markup_inquiry)
    "<p><strong>Name:</strong> <b>Jo</b></p>" /\
  contains (html_body_of markup_inquiry)
    "<p><strong>Phone:</strong> 555-0100 </p>" /\
  contains (html_body_of markup_inquiry)
    "<p><strong>Source:</strong> ad&campaign</p>" /\
  contains (html_body_of markup_inquiry) "<p><script>alert(1)</script></p>" /\
  contains (html_body_of jo_inquiry) "<p><strong>Phone:</strong> - </p>".
Proof.
  destruct (notification_shows_inquiry mail_settings "owner@example.com" markup_inquiry)
    as (_ & _ & _ & Hname & _ & Hphone & _ & _ & Hsource & _ & Hmessage).
  destruct (notification_shows_inquiry mail_settings "owner@example.com" jo_inquiry)
    as (_ & _ & _ & _ & _ & _ & Hdash & _).
  split; [exact Hname|]. split; [apply (Hphone "555-0100"); [reflexivity|discriminate]|].
  split; [apply (Hsource "ad&campaign"); [reflexivity|discriminate]|].
  split; [exact Hmessage|apply Hdash; reflexivity].
Defined.

(** ** Examples for the further properties *)

Lemma connection_failure_stops_notification_witness :
  send_inquiry_email strict_mime mail_settings jo_inquiry refusing_connection [] =
    ([SMTP_connect "smtp.example.com" 587 15], Raises "Connection refused").
Proof.
  apply (connection_failure_stops_notification strict_mime mail_settings jo_inquiry
           refusing_connection "smtp.example.com" "owner@example.com");
    [reflexivity|discriminate|reflexivity|discriminate|reflexivity|reflexivity
    |reflexivity].
Defined.

Lemma failed_login_sends_nothing_witness :
  fst (send_inquiry_email strict_mime mail_settings jo_inquiry refusing_login []) =
    [SMTP_connect "smtp.example.com" 587 15; SMTP_starttls;
     SMTP_login "mailer" "secret"; SMTP_quit] /\
  snd (send_inquiry_email strict_mime mail_settings jo_inquiry refusing_login []) =
    Raises "535 Authentication failed".
Proof.
  destruct (failed_login_sends_nothing strict_mime mail_settings jo_inquiry
              refusing_login "smtp.example.com" "owner@example.com" "mailer" "secret"
              "535 Authentication failed")
    as (Hcalls & _ & e' & Hraises & He');
    [reflexivity|discriminate|reflexivity|discriminate|reflexivity|discriminate
    |reflexivity|discriminate|reflexivity|reflexivity|reflexivity|reflexivity|].
  split; [exact Hcalls|]. rewrite Hraises, He'; reflexivity.
Defined.

(** The message is rejected and the function raises: sendmail is among the
    calls that must return. *)
Lemma only_starttls_failure_is_swallowed_witness :
  snd (send_inquiry_email lenient_mime mail_settings jo_inquiry refusing_sendmail [])
    <> Returns tt /\
  snd (send_inquiry_email lenient_mime mail_settings jo_inquiry refusing_starttls [])
    = Returns tt.
Proof.
  split.
  - intros Hret.
    apply (only_starttls_failure_is_swallowed lenient_mime mail_settings jo_inquiry
             refusing_sendmail) in Hret; [|reflexivity|reflexivity|reflexivity].
    vm_compute in Hret.
    do 3 (apply List.Forall_inv_tail in Hret).
    apply List.Forall_inv in Hret. destruct Hret as [H|H]; discriminate H.
  - apply (only_starttls_failure_is_swallowed lenient_mime mail_settings jo_inquiry
             refusing_starttls); [reflexivity|reflexivity|reflexivity|].
    vm_compute.
    repeat (apply List.Forall_cons; [first [left; reflexivity|right; reflexivity]|]).
    apply List.Forall_nil.
Defined.

Lemma connection_is_always_closed_witness :
  exists between,
    fst (send_inquiry_email strict_mime mail_settings header_inquiry refusing_login []) =
      SMTP_connect "smtp.example.com" 587 15 :: between ++ [SMTP_quit] /\
    SMTP_quit ∉ between.
Proof.
  apply (connection_is_always_closed strict_mime mail_settings header_inquiry
           refusing_login "smtp.example.com" "owner@example.com");
    [reflexivity|discriminate|reflexivity|discriminate|reflexivity|reflexivity
    |reflexivity].
Defined.

(** A sender address with a character outside ASCII: nothing reaches the
    transport. A name with a line break: the connection opens and closes
    without a sendmail. *)
Lemma unsendable_message_is_not_sent_witness :
  fst (send_inquiry_email strict_mime umlaut_settings jo_inquiry accepting []) = [] /\
  List.filter is_sendmail
    (fst (send_inquiry_email strict_mime mail_settings header_inquiry accepting [])) = [].
Proof.
  split.
  - rewrite (proj1 (unsendable_message_is_not_sent strict_mime umlaut_settings
                      jo_inquiry accepting "smtp.example.com" "owner@example.com"
                      "'ascii' codec can't encode character"
                      eq_refl ltac:(discriminate) eq_refl ltac:(discriminate)) eq_refl).
    reflexivity.
  - apply (unsendable_message_is_not_sent strict_mime mail_settings header_inquiry
             accepting "smtp.example.com" "owner@example.com"
             "header value appears to contain an embedded header");
      [reflexivity|discriminate|reflexivity|discriminate|reflexivity|reflexivity
      |reflexivity|reflexivity].
Defined.

Lemma missing_field_is_cited_witness :
  exists errs,
    response (post_inquiries sample_validate_email strict_mime mail_settings accepting None
                empty_store only_email) =
      {| status_code := 422; body := [("detail", Errors errs)] |} /\
    {| loc := "name"; err_type := missing |} ∈ errs /\
    {| loc := "message"; err_type := missing |} ∈ errs.
Proof.
  destruct (missing_field_is_cited sample_validate_email strict_mime mail_settings accepting None
              empty_store only_email) as (errs & Hpost & Hname & _ & Hmessage).
  - left. reflexivity.
  - exists errs. rewrite Hpost. split; [reflexivity|].
    split; [apply Hname|apply Hmessage]; reflexivity.
Defined.

Lemma validation_errors_are_sound_witness :
  NoDup (loc <$> [{| loc := "name"; err_type := missing |};
                  {| loc := "message"; err_type := missing |}]).
Proof.
  apply (validation_errors_are_sound sample_validate_email only_email).
  reflexivity.
Defined.

Lemma omitted_fields_in_notification_witness :
  contains (html_body_of null_source_inquiry) "<p><strong>Source:</strong> website</p>" /\
  contains (html_body_of null_source_inquiry) "<p><strong>Phone:</strong> - </p>".
Proof.
  destruct (omitted_fields_in_notification sample_validate_email null_source
              null_source_inquiry) as (Hsource & Hphone & _); [reflexivity|].
  split; [apply Hsource|apply Hphone]; right; [left|right]; reflexivity.
Defined.

(** Invalid body and failing store: the answer is 422, not 500. *)
Lemma only_success_leaves_a_trace_witness :
  status_code (response (post_inquiries sample_validate_email strict_mime mail_settings accepting
                           (Some "Database not available") empty_store only_email)) = 422.
Proof.
  apply (only_success_leaves_a_trace sample_validate_email strict_mime mail_settings accepting
           (Some "Database not available") empty_store only_email).
  eexists. reflexivity.
Defined.

(** Twelve collections: ten are shown. An unreachable database: none. *)
Lemma test_database_shows_ten_collections_witness :
  test_database (Some twelve_collections) ∅ !! "collections" =
    Some (DList ["c01"; "c02"; "c03"; "c04"; "c05"; "c06"; "c07"; "c08"; "c09"; "c10"]) /\
  test_database (Some unreachable_database) ∅ !! "collections" = Some (DList []).
Proof.
  destruct (test_database_shows_ten_collections (Some twelve_collections) ∅)
    as (shown & Hshown & _ & Htake & _).
  destruct (test_database_shows_ten_collections (Some unreachable_database) ∅)
    as (none & Hnone & _ & _ & Hempty).
  split.
  - rewrite Hshown. rewrite (Htake twelve_collections _ _ eq_refl eq_refl eq_refl).
    reflexivity.
  - rewrite Hnone. rewrite Hempty; [reflexivity|].
    right. exists unreachable_database, "ServerSelectionTimeoutError".
    split; [reflexivity|right; reflexivity].
Defined.

Lemma test_database_truncates_errors_witness :
  test_database (Some unreachable_database) ∅ !! "database" =
    Some (DStr ("⚠️  Connected but Error: " +:+ "ServerSelectionTimeoutError")) /\
  test_database (Some unreachable_database) ∅ !! "connection_status" =
    Some (DStr "Connected").
Proof.
  destruct (test_database_truncates_errors unreachable_database ∅
              "ServerSelectionTimeoutError") as (_ & _ & Hlisting & _).
  apply (Hlisting (Some "psychsphere")); reflexivity.
Defined.
